(** * UrhebertAnalyzer: cache-then-research resolution of a domain's operator type

    A shallow embedding of the two analyzers of the repository,
    [src/main.py] (module [MainPy]) and [src/new.py] (module [NewPy]), and the
    properties of their [analyze] methods.

    Modelling conventions.
    - Python values that flow through the analyzers (documents, query
      dictionaries, decoded JSON, result envelopes) are [pyval]s; a [dict] is an
      association list in insertion order.
    - An exception is an [exn]: the class name and the text [str(e)] gives.
      Only instances of [Exception] are modelled (what [except Exception]
      catches).
    - The store, the OpenAI client and [BaseAnalyzer._process_response] are
      collaborators outside the source: they are handlers over an arbitrary
      world state [S], each may change the state and may raise.
    - A computation is a function from the world state to a [run]: its outcome,
      the state it leaves and the log of the external calls it made.
    - [print] only writes to the console and is left out.
    - A float literal is kept as the rational it denotes; the analyzers only
      store and never compute with them. *)

From Stdlib Require Import String Ascii List ZArith QArith Bool.
Import ListNotations.
Close Scope Q_scope.
Local Open Scope list_scope.
Local Open Scope string_scope.
Set Warnings "-register-all".

(** ** Python values *)

Inductive pyval : Type :=
| PNone
| PBool (b : bool)
| PInt (z : Z)
| PFloat (q : Q)
| PStr (s : string)
| PList (l : list pyval)
| PDict (d : list (string * pyval)).

Record exn : Type := mkExn { exn_class : string; exn_str : string }.

Inductive outcome (A : Type) : Type :=
| Ret (a : A)
| Raise (e : exn).
Arguments Ret {A} a.
Arguments Raise {A} e.

(** [bool(v)]: the truth value Python gives a value in [if v] and [not v]. *)
Definition truthy (v : pyval) : bool :=
  match v with
  | PNone => false
  | PBool b => b
  | PInt z => negb (Z.eqb z 0)
  | PFloat q => negb (Qeq_bool q 0)
  | PStr s => negb (String.eqb s EmptyString)
  | PList l => match l with [] => false | _ :: _ => true end
  | PDict d => match d with [] => false | _ :: _ => true end
  end.

Definition type_name (v : pyval) : string :=
  match v with
  | PNone => "NoneType"
  | PBool _ => "bool"
  | PInt _ => "int"
  | PFloat _ => "float"
  | PStr _ => "str"
  | PList _ => "list"
  | PDict _ => "dict"
  end.

(** ** Dictionaries *)

Definition pydict : Type := list (string * pyval).

Fixpoint dict_lookup (k : string) (d : pydict) : option pyval :=
  match d with
  | [] => None
  | (k', v) :: d' => if String.eqb k k' then Some v else dict_lookup k d'
  end.

(** [d[k] = v]: an existing key keeps its place, a new key goes last. *)
Fixpoint dict_set (k : string) (v : pyval) (d : pydict) : pydict :=
  match d with
  | [] => [(k, v)]
  | (k', v') :: d' =>
      if String.eqb k k' then (k', v) :: d' else (k', v') :: dict_set k v d'
  end.

(** [d.update(u)] *)
Definition dict_update (u d : pydict) : pydict :=
  fold_left (fun acc kv => dict_set (fst kv) (snd kv) acc) u d.

Definition quote : string := String "'" EmptyString.

Definition no_attribute (v : pyval) (attr : string) : exn :=
  mkExn "AttributeError"
        (quote ++ type_name v ++ "' object has no attribute '" ++ attr ++ quote).

(** [d.get(k, default)] on a dictionary *)
Definition dict_get (k : string) (default : pyval) (d : pydict) : pyval :=
  match dict_lookup k d with
  | Some x => x
  | None => default
  end.

(** [v.get(k, default)] on any value *)
Definition py_get (v : pyval) (k : string) (default : pyval) : outcome pyval :=
  match v with
  | PDict d => Ret (dict_get k default d)
  | _ => Raise (no_attribute v "get")
  end.

(** [needle in hay] for two strings *)
Fixpoint is_substring (needle hay : string) : bool :=
  if String.prefix needle hay then true
  else match hay with
       | EmptyString => false
       | String _ hay' => is_substring needle hay'
       end.

(** [k in v] for a string [k] *)
Definition py_contains (k : string) (v : pyval) : outcome bool :=
  match v with
  | PDict d => Ret (match dict_lookup k d with Some _ => true | None => false end)
  | PStr s => Ret (is_substring k s)
  | PList l =>
      Ret (existsb (fun x => match x with PStr s => String.eqb s k | _ => false end) l)
  | _ => Raise (mkExn "TypeError"
                      ("argument of type '" ++ type_name v ++ "' is not iterable"))
  end.

(** [v[k]] for a string [k] *)
Definition py_getitem (v : pyval) (k : string) : outcome pyval :=
  match v with
  | PDict d =>
      match dict_lookup k d with
      | Some x => Ret x
      | None => Raise (mkExn "KeyError" (quote ++ k ++ quote))
      end
  | PStr _ => Raise (mkExn "TypeError" "string indices must be integers, not 'str'")
  | PList _ =>
      Raise (mkExn "TypeError" "list indices must be integers or slices, not str")
  | _ => Raise (mkExn "TypeError"
                      (quote ++ type_name v ++ "' object is not subscriptable"))
  end.

(** [v[k] = x] for a string [k] *)
Definition py_setitem (v : pyval) (k : string) (x : pyval) : outcome pyval :=
  match v with
  | PDict d => Ret (PDict (dict_set k x d))
  | PList _ =>
      Raise (mkExn "TypeError" "list indices must be integers or slices, not str")
  | _ => Raise (mkExn "TypeError"
                      (quote ++ type_name v ++ "' object does not support item assignment"))
  end.

(** [v.update(u)] *)
Definition py_update (v : pyval) (u : pydict) : outcome pyval :=
  match v with
  | PDict d => Ret (PDict (dict_update u d))
  | _ => Raise (no_attribute v "update")
  end.

(** ** The Python runtime

    [json.loads] and the text [str] gives a number or a container belong to
    the interpreter; every theorem holds whatever they do. *)

Record python : Type := mkPython {
  py_repr : pyval -> string;
  json_loads : string -> outcome pyval
}.

(** [str(v)] as an f-string field [{v}] formats it. *)
Definition py_str (py : python) (v : pyval) : string :=
  match v with
  | PStr s => s
  | PNone => "None"
  | PBool true => "True"
  | PBool false => "False"
  | _ => py_repr py v
  end.

(** ** The OpenAI client's objects *)

Record function_call : Type := mkFunctionCall {
  fc_name : string;
  fc_arguments : string
}.

Record tool_call : Type := mkToolCall {
  tc_id : string;
  tc_function : function_call
}.

(** A message of a chat completion: [content] is a string or [None],
    [tool_calls] a list or [None]. *)
Record chat_message : Type := mkChatMessage {
  msg_content : option string;
  msg_tool_calls : option (list tool_call)
}.

Record choice : Type := mkChoice { message : chat_message }.

Record chat_completion : Type := mkChatCompletion {
  choices : list choice
}.

(** An entry of [messages]: a dictionary, or a message object sent back. *)
Inductive message_param : Type :=
| MsgDict (d : pyval)
| MsgObj (m : chat_message).

(** The keyword arguments of [client.chat.completions.create]. *)
Record chat_request : Type := mkChatRequest {
  rq_model : string;
  rq_messages : list message_param;
  rq_tools : option pyval;
  rq_tool_choice : option pyval;
  rq_response_format : option pyval
}.

(** The keyword arguments of [client.responses.create]. *)
Record responses_request : Type := mkResponsesRequest {
  rr_model : string;
  rr_input : string;
  rr_tools : pyval
}.

Record response : Type := mkResponse { output_text : string }.

(** ** External calls *)

Inductive event : Type :=
| EvFindOne (query projection : pyval)
| EvChatCreate (rq : chat_request)
| EvResponsesCreate (rq : responses_request).

Definition is_store_call (e : event) : bool :=
  match e with EvFindOne _ _ => true | _ => false end.

Definition is_research_call (e : event) : bool :=
  match e with EvFindOne _ _ => false | _ => true end.

Definition store_calls (l : list event) : nat := length (filter is_store_call l).
Definition research_calls (l : list event) : nat := length (filter is_research_call l).

(** ** Computations over the collaborators' state *)

Section Computations.
Context {S : Type}.

Record run (A : Type) : Type := mkRun {
  res : outcome A;
  st : S;
  log : list event
}.
Arguments mkRun {A}.
Arguments res {A}.
Arguments st {A}.
Arguments log {A}.

Definition M (A : Type) : Type := S -> run A.

(** What a collaborator does when called: an answer or an exception, and
    the state it leaves. *)
Definition handler (A : Type) : Type := S -> outcome A * S.

Definition ret {A} (a : A) : M A := fun s => mkRun (Ret a) s [].

Definition raise {A} (e : exn) : M A := fun s => mkRun (Raise e) s [].

Definition lift {A} (o : outcome A) : M A := fun s => mkRun o s [].

Definition bind {A B} (m : M A) (f : A -> M B) : M B :=
  fun s =>
    let r := m s in
    match res r with
    | Ret a => let r' := f a (st r) in mkRun (res r') (st r') (log r ++ log r')%list
    | Raise e => mkRun (Raise e) (st r) (log r)
    end.

(** [try: m  except Exception as e: h e] *)
Definition try_except {A} (m : M A) (h : exn -> M A) : M A :=
  fun s =>
    let r := m s in
    match res r with
    | Ret a => r
    | Raise e => let r' := h e (st r) in mkRun (res r') (st r') (log r ++ log r')%list
    end.

(** A call to a collaborator, entered in the log. *)
Definition call {A} (ev : event) (h : handler A) : M A :=
  fun s => mkRun (fst (h s)) (snd (h s)) [ev].

(** A call to code of the repository that is not in the source. *)
Definition internal {A} (h : handler A) : M A :=
  fun s => mkRun (fst (h s)) (snd (h s)) [].

(** The collection object: [collection.find_one(query, projection)]. *)
Definition collection : Type := pyval -> pyval -> handler pyval.

End Computations.

Arguments run S A : clear implicits.
Arguments M S A : clear implicits.
Arguments handler S A : clear implicits.
Arguments collection S : clear implicits.
Arguments mkRun {S A}.
Arguments res {S A}.
Arguments st {S A}.
Arguments log {S A}.

Notation "x <- m ;; k" := (bind m (fun x => k))
  (at level 61, m at next level, right associativity).

(** ** Text shared by the two prompts *)

Definition dq : string := String (ascii_of_nat 34) EmptyString.
Definition nl : string := String (ascii_of_nat 10) EmptyString.
Definition quoted (s : string) : string := dq ++ s ++ dq.

(** The seven categories and the gloss each prompt gives. *)
Definition category_table : list (string * string) :=
  [ ("staatlich", "Behörde, Ministerium, staatliche Einrichtung");
    ("nicht staatliche Hilfsorganisation", "NGO, Hilfswerk, gemeinnützige Organisation");
    ("sonstige Vereine", "Vereine, die keine Hilfsorganisationen sind");
    ("Organisationen", "internationale Organisationen, Verbände");
    ("Gemeinschaften", "informelle Gruppen, Communities, Netzwerke");
    ("Unternehmen", "kommerzielle Unternehmen, GmbH, AG, etc.");
    ("Privatperson", "von Einzelpersonen betriebene Webseiten") ].

Definition categories : list string := map fst category_table.

Definition is_category (s : string) : bool :=
  existsb (String.eqb s) categories.

Definition category_lines : string :=
  String.concat EmptyString
    (map (fun c => "- " ++ quoted (fst c) ++ " (" ++ snd c ++ ")" ++ nl) category_table).

Definition json_format : string :=
  "{" ++ nl ++
  "  " ++ quoted "urheber" ++ ": " ++ quoted "KATEGORIE" ++ "," ++ nl ++
  "  " ++ quoted "begründung" ++ ": " ++ quoted "Kurze Begründung für die Einordnung" ++ "," ++ nl ++
  "  " ++ quoted "quellen" ++ ": [" ++ quoted "Quelle 1" ++ ", " ++ quoted "Quelle 2" ++ "]" ++ nl ++
  "}".

(** [response.choices[0].message] *)
Definition first_message (r : chat_completion) : outcome chat_message :=
  match choices r with
  | c :: _ => Ret (message c)
  | [] => Raise (mkExn "IndexError" "list index out of range")
  end.

(** A [content] attribute as a Python value. *)
Definition content_value (c : option string) : pyval :=
  match c with
  | Some s => PStr s
  | None => PNone
  end.

(** * src/main.py *)

Module MainPy.
Section UrhebertAnalyzer.
Context {S : Type}.
Variable py : python.
(** [self.client.chat.completions.create] *)
Variable chat_completions_create : chat_request -> handler S chat_completion.
(** [self._process_response], inherited from [BaseAnalyzer], which is not
    part of the source: any behaviour is allowed. *)
Variable _process_response : option string -> handler S pyval.

Definition domain_query (domain : string) : pyval :=
  PDict [("domain", PDict [("$regex", PStr domain); ("$options", PStr "i")])].

Definition urheber_query : pyval :=
  PDict [("urheber", PDict [("$exists", PBool true); ("$ne", PStr EmptyString)])].

Definition query (domain : string) : pyval :=
  PDict [("$and", PList [domain_query domain; urheber_query])].

Definition projection : pyval :=
  PDict [("urheber", PInt 1); ("_id", PInt 0)].

Definition _check_database_for_domain
    (collection : collection S) (domain : string) : M S pyval :=
  try_except
    (result <- call (EvFindOne (query domain) projection)
                    (collection (query domain) projection) ;;
     if truthy result then
       found <- lift (py_contains "urheber" result) ;;
       if found : bool then lift (py_getitem result "urheber")
       else ret PNone
     else ret PNone)
    (fun e => ret PNone).

Definition web_search_function : pyval :=
  PDict
    [ ("name", PStr "web_search");
      ("description", PStr "Search the web for information about a domain or website");
      ("parameters",
       PDict
         [ ("type", PStr "object");
           ("properties",
            PDict [("query",
                    PDict [("type", PStr "string");
                           ("description", PStr "The search query to use")])]);
           ("required", PList [PStr "query"]) ]) ].

Definition search_query (domain : string) (url : pyval) : string :=
  "Wer betreibt die Website " ++ domain ++ " oder " ++ py_str py url ++
  "? Ist es eine staatliche Einrichtung, Organisation, Unternehmen oder Privatperson?".

Definition search_messages (domain : string) (url : pyval) : list message_param :=
  [ MsgDict (PDict [("role", PStr "system");
                    ("content", PStr "You search the web for information and provide factual information only.")]);
    MsgDict (PDict [("role", PStr "user");
                    ("content", PStr (search_query domain url))]) ].

Definition search_request (domain : string) (url : pyval) : chat_request :=
  mkChatRequest "gpt-4o" (search_messages domain url)
    (Some (PList [PDict [("type", PStr "function"); ("function", web_search_function)]]))
    (Some (PDict [("type", PStr "function");
                  ("function", PDict [("name", PStr "web_search")])]))
    None.

Definition results_request
    (domain : string) (url : pyval) (search_message : chat_message) (tc : tool_call)
    : chat_request :=
  mkChatRequest "gpt-4o"
    (search_messages domain url ++
     [ MsgObj search_message;
       MsgDict (PDict [("role", PStr "tool");
                       ("tool_call_id", PStr (tc_id tc));
                       ("name", PStr "web_search");
                       ("content", PStr "Search results for the domain...")]) ])%list
    None None None.

Definition classification_prompt
    (domain : string) (search_results url : pyval) : string :=
  "Basierend auf den folgenden Suchergebnissen, klassifiziere den Betreiber der Domain "
  ++ domain ++ " in GENAU EINE dieser Kategorien:" ++ nl ++
  "            " ++ nl ++
  category_lines ++ nl ++
  "Suchergebnisse:" ++ nl ++
  py_str py search_results ++ nl ++ nl ++
  "URL: " ++ py_str py url ++ nl ++ nl ++
  "Antworte im JSON-Format:" ++ nl ++
  json_format.

Definition classification_request
    (domain : string) (search_results url : pyval) : chat_request :=
  mkChatRequest "gpt-4o"
    [ MsgDict (PDict [("role", PStr "system");
                      ("content", PStr "You analyze website operators and classify them into categories.")]);
      MsgDict (PDict [("role", PStr "user");
                      ("content", PStr (classification_prompt domain search_results url))]) ]
    None None (Some (PDict [("type", PStr "json_object")])).

(** Lines 110-142: the search round, up to [search_results]. *)
Definition web_search (domain : string) (url : pyval) : M S pyval :=
  search_response <- call (EvChatCreate (search_request domain url))
                          (chat_completions_create (search_request domain url)) ;;
  search_message <- lift (first_message search_response) ;;
  match msg_tool_calls search_message with
  | Some (tc :: _) =>
      search_args <- lift (json_loads py (fc_arguments (tc_function tc))) ;;
      _ <- lift (py_get search_args "query" (PStr (search_query domain url))) ;;
      results_response <-
        call (EvChatCreate (results_request domain url search_message tc))
             (chat_completions_create (results_request domain url search_message tc)) ;;
      m <- lift (first_message results_response) ;;
      ret (content_value (msg_content m))
  | _ => ret (PStr "No search results available.")
  end.

(** Lines 110-177: what [classification_response.choices[0].message.content]
    is when the three requests went through. *)
Definition classification_content (domain : string) (url : pyval)
    : M S (option string) :=
  search_results <- web_search domain url ;;
  classification_response <-
    call (EvChatCreate (classification_request domain search_results url))
         (chat_completions_create (classification_request domain search_results url)) ;;
  m <- lift (first_message classification_response) ;;
  ret (msg_content m).

Definition error_result (e : exn) (domain : string) : pyval :=
  PDict [ ("urheber", PStr "unbekannt");
          ("confidence", PInt 0);
          ("method", PStr "error");
          ("error", PStr (exn_str e));
          ("domain", PStr domain) ].

(** Lines 109-183: the suite of the [try] statement. *)
Definition research_attempt (domain : string) (url : pyval) : M S pyval :=
  content <- classification_content domain url ;;
  result <- internal (_process_response content) ;;
  result <- lift (py_setitem result "method" (PStr "web_search")) ;;
  result <- lift (py_setitem result "confidence" (PFloat (8 # 10))) ;;
  result <- lift (py_setitem result "domain" (PStr domain)) ;;
  ret result.

Definition _research_domain_with_web_search (domain : string) (url : pyval)
    : M S pyval :=
  try_except (research_attempt domain url)
             (fun e => ret (error_result e domain)).

Definition failure_result : pyval :=
  PDict [ ("urheber", PStr "unbekannt");
          ("confidence", PInt 0);
          ("method", PStr "failure") ].

Definition database_result (existing_urheber : pyval) (full_domain : string) : pyval :=
  PDict [ ("urheber", existing_urheber);
          ("confidence", PFloat 1);
          ("method", PStr "database");
          ("domain", PStr full_domain) ].

(** [f"{domain}.{tld}"] *)
Definition full_domain_of (domain tld : pyval) : string :=
  py_str py domain ++ "." ++ py_str py tld.

(** [analyze(self, document, **kwargs)]; [collection] is
    [kwargs.get("collection", None)]. *)
Definition analyze (document : pyval) (collection : option (collection S))
    : M S pyval :=
  url <- lift (py_get document "url" (PStr EmptyString)) ;;
  domain_info <- lift (py_get document "domain_info" (PDict [])) ;;
  domain <- lift (py_get domain_info "domain" (PStr EmptyString)) ;;
  tld <- lift (py_get domain_info "tld" (PStr EmptyString)) ;;
  if negb (truthy domain) || negb (truthy tld) then ret failure_result
  else
    let full_domain := full_domain_of domain tld in
    match collection with
    | Some c =>
        existing_urheber <- _check_database_for_domain c full_domain ;;
        if truthy existing_urheber
        then ret (database_result existing_urheber full_domain)
        else _research_domain_with_web_search full_domain url
    | None => _research_domain_with_web_search full_domain url
    end.

(** [_create_urheber_prompt(self, domain, url)]: both arguments are
    strings; no method of the class calls it. *)
Definition _create_urheber_prompt (domain url : string) : string :=
  "Recherchiere den Betreiber der Website/Domain: " ++ domain ++
  " (" ++ url ++ ")." ++ nl ++ nl ++
  "Aufgabe: Bestimme, welcher Kategorie der Betreiber der Website angehört. " ++ nl ++ nl ++
  "Suche nach:" ++ nl ++
  "1. Informationen über den Webseitenbetreiber (Impressum, About, Legal, Contact pages)" ++ nl ++
  "2. Organisationsform (GmbH, AG, e.V., Behörde, etc.)" ++ nl ++
  "3. Staatliche Verbindungen oder Funktion" ++ nl ++
  "4. Nonprofit-Status oder gemeinnütziger Zweck" ++ nl ++
  "5. Ob es sich um eine Privatperson handelt" ++ nl ++ nl ++
  "Klassifiziere den Betreiber in GENAU EINE dieser Kategorien:" ++ nl ++
  category_lines ++ nl ++
  "Begründe deine Einordnung und gib deine Quellen an." ++ nl ++
  "Antworte im JSON-Format." ++ nl.

End UrhebertAnalyzer.
End MainPy.

(** * src/new.py *)

Module NewPy.
Section UrhebertAnalyzer.
Context {S : Type}.
Variable py : python.
(** [self.client.responses.create] *)
Variable responses_create : responses_request -> handler S response.

Definition prompt (full_domain : string) (url : pyval) : string :=
  nl ++
  "Recherchiere den Betreiber der Website/Domain: " ++ full_domain ++
  " (" ++ py_str py url ++ ")." ++ nl ++ nl ++
  "Aufgabe: Bestimme, welcher Kategorie der Betreiber der Website angehört." ++ nl ++ nl ++
  "Kategorien:" ++ nl ++
  category_lines ++ nl ++
  "Bitte gib die Kategorie des Betreibers an, eine kurze Begründung und nenne die verwendeten Quellen." ++ nl ++
  "Antworte im folgenden JSON-Format:" ++ nl ++
  json_format ++ nl.

Definition request (full_domain : string) (url : pyval) : responses_request :=
  mkResponsesRequest "gpt-4o" (prompt full_domain url)
    (PList [PDict [("type", PStr "web_search")]]).

Definition failure_result : pyval :=
  PDict [ ("urheber", PStr "unbekannt");
          ("confidence", PInt 0);
          ("method", PStr "failure");
          ("reason", PStr "Missing domain or TLD information.") ].

Definition metadata (full_domain : string) : pydict :=
  [ ("method", PStr "responses_api_web_search");
    ("confidence", PFloat (9 # 10));
    ("domain", PStr full_domain) ].

Definition error_result (e : exn) (full_domain : string) : pyval :=
  PDict [ ("urheber", PStr "unbekannt");
          ("confidence", PInt 0);
          ("method", PStr "error");
          ("error", PStr (exn_str e));
          ("domain", PStr full_domain) ].

Definition full_domain_of (domain tld : pyval) : string :=
  py_str py domain ++ "." ++ py_str py tld.

(** Lines 64-84: the suite of the [try] statement. *)
Definition research_attempt (full_domain : string) (url : pyval) : M S pyval :=
  response <- call (EvResponsesCreate (request full_domain url))
                   (responses_create (request full_domain url)) ;;
  result <- lift (json_loads py (output_text response)) ;;
  lift (py_update result (metadata full_domain)).

(** Lines 63-93: the [try] statement. *)
Definition research (full_domain : string) (url : pyval) : M S pyval :=
  try_except (research_attempt full_domain url)
             (fun e => ret (error_result e full_domain)).

(** [analyze(self, document, **kwargs)]: the keyword arguments, a
    [collection] among them, are never read. *)
Definition analyze (document : pyval) (collection : option (collection S))
    : M S pyval :=
  domain_info <- lift (py_get document "domain_info" (PDict [])) ;;
  domain <- lift (py_get domain_info "domain" (PStr EmptyString)) ;;
  tld <- lift (py_get domain_info "tld" (PStr EmptyString)) ;;
  url <- lift (py_get document "url" (PStr EmptyString)) ;;
  if negb (truthy domain) || negb (truthy tld) then ret failure_result
  else research (full_domain_of domain tld) url.

End UrhebertAnalyzer.
End NewPy.

(** * Collaborators for the examples

    A concrete interpreter and concrete collaborators over which [analyze] can
    be evaluated. The world state is the number of calls served so far. *)

Module Json.

(** A decoder for the JSON texts of the examples: objects, arrays, strings
    without escapes, integers and the three literals. *)

Definition is_ws (c : ascii) : bool :=
  existsb (Ascii.eqb c)
          [ascii_of_nat 32; ascii_of_nat 9; ascii_of_nat 10; ascii_of_nat 13].

Definition is_digit (c : ascii) : bool :=
  (48 <=? nat_of_ascii c)%nat && (nat_of_ascii c <=? 57)%nat.

Fixpoint skip_ws (s : string) : string :=
  match s with
  | String c r => if is_ws c then skip_ws r else s
  | EmptyString => s
  end.

Fixpoint drop (n : nat) (s : string) : string :=
  match n, s with
  | Datatypes.S n', String _ r => drop n' r
  | _, _ => s
  end.

(** The characters up to the closing quote, and what follows it. *)
Fixpoint read_string (s : string) : option (string * string) :=
  match s with
  | EmptyString => None
  | String c r =>
      if Ascii.eqb c (ascii_of_nat 34) then Some (EmptyString, r)
      else if Ascii.eqb c (ascii_of_nat 92) || (nat_of_ascii c <? 32)%nat then None
      else match read_string r with
           | Some (x, r') => Some (String c x, r')
           | None => None
           end
  end.

Fixpoint read_digits (acc : Z) (s : string) : Z * string :=
  match s with
  | String c r =>
      if is_digit c
      then read_digits (10 * acc + Z.of_nat (nat_of_ascii c - 48)) r
      else (acc, s)
  | EmptyString => (acc, s)
  end.

Definition ends_integer (s : string) : bool :=
  match s with
  | String c _ =>
      negb (Ascii.eqb c "." || Ascii.eqb c "e" || Ascii.eqb c "E" || is_digit c)
  | EmptyString => true
  end.

Definition read_natural (s : string) : option (Z * string) :=
  match s with
  | String c r =>
      if Ascii.eqb c "0" then
        if ends_integer r then Some (0%Z, r) else None
      else if is_digit c then
        let (z, r') := read_digits 0 s in
        if ends_integer r' then Some (z, r') else None
      else None
  | EmptyString => None
  end.

Definition read_integer (s : string) : option (pyval * string) :=
  match s with
  | String c r =>
      if Ascii.eqb c "-" then
        match read_natural r with
        | Some (z, r') => Some (PInt (- z), r')
        | None => None
        end
      else
        match read_natural s with
        | Some (z, r') => Some (PInt z, r')
        | None => None
        end
  | EmptyString => None
  end.

Fixpoint value (fuel : nat) (s : string) {struct fuel} : option (pyval * string) :=
  match fuel with
  | O => None
  | Datatypes.S f =>
      match s with
      | EmptyString => None
      | String c r =>
          if Ascii.eqb c "{" then
            match skip_ws r with
            | String c' r' =>
                if Ascii.eqb c' "}" then Some (PDict [], r')
                else members f [] (String c' r')
            | EmptyString => None
            end
          else if Ascii.eqb c "[" then
            match skip_ws r with
            | String c' r' =>
                if Ascii.eqb c' "]" then Some (PList [], r')
                else elements f [] (String c' r')
            | EmptyString => None
            end
          else if Ascii.eqb c (ascii_of_nat 34) then
            match read_string r with
            | Some (x, r') => Some (PStr x, r')
            | None => None
            end
          else if String.prefix "null" s then Some (PNone, drop 4 s)
          else if String.prefix "true" s then Some (PBool true, drop 4 s)
          else if String.prefix "false" s then Some (PBool false, drop 5 s)
          else read_integer s
      end
  end
with members (fuel : nat) (acc : pydict) (s : string) {struct fuel}
    : option (pyval * string) :=
  match fuel with
  | O => None
  | Datatypes.S f =>
      match s with
      | String c r =>
          if Ascii.eqb c (ascii_of_nat 34) then
            match read_string r with
            | Some (k, r1) =>
                match skip_ws r1 with
                | String c2 r2 =>
                    if Ascii.eqb c2 ":" then
                      match value f (skip_ws r2) with
                      | Some (v, r3) =>
                          match skip_ws r3 with
                          | String c4 r4 =>
                              if Ascii.eqb c4 "," then
                                members f (dict_set k v acc) (skip_ws r4)
                              else if Ascii.eqb c4 "}" then
                                Some (PDict (dict_set k v acc), r4)
                              else None
                          | EmptyString => None
                          end
                      | None => None
                      end
                    else None
                | EmptyString => None
                end
            | None => None
            end
          else None
      | EmptyString => None
      end
  end
with elements (fuel : nat) (acc : list pyval) (s : string) {struct fuel}
    : option (pyval * string) :=
  match fuel with
  | O => None
  | Datatypes.S f =>
      match value f s with
      | Some (v, r1) =>
          match skip_ws r1 with
          | String c2 r2 =>
              if Ascii.eqb c2 "," then elements f (acc ++ [v])%list (skip_ws r2)
              else if Ascii.eqb c2 "]" then Some (PList (acc ++ [v])%list, r2)
              else None
          | EmptyString => None
          end
      | None => None
      end
  end.

Definition decode_error (msg : string) : exn := mkExn "JSONDecodeError" msg.

Definition loads (s : string) : outcome pyval :=
  match value (Datatypes.S (String.length s)) (skip_ws s) with
  | Some (v, r) =>
      match skip_ws r with
      | EmptyString => Ret v
      | String _ _ => Raise (decode_error "Extra data")
      end
  | None => Raise (decode_error "Expecting value")
  end.

End Json.

Module Demo.

(** The interpreter of the examples. They format strings only: a number or
    a container would print as its type's name. *)
Definition python : python :=
  mkPython (fun v => "<" ++ type_name v ++ ">") Json.loads.

Definition lower (c : ascii) : ascii :=
  let n := nat_of_ascii c in
  if (65 <=? n)%nat && (n <=? 90)%nat then ascii_of_nat (n + 32) else c.

Fixpoint lowercase (s : string) : string :=
  match s with
  | String c r => String (lower c) (lowercase r)
  | EmptyString => EmptyString
  end.

(** The pattern under [$and[0].domain.$regex] of a query. *)
Definition pattern_of (q : pyval) : option string :=
  match q with
  | PDict d =>
      match dict_lookup "$and" d with
      | Some (PList (PDict dom :: _)) =>
          match dict_lookup "domain" dom with
          | Some (PDict r) =>
              match dict_lookup "$regex" r with
              | Some (PStr k) => Some k
              | _ => None
              end
          | _ => None
          end
      | _ => None
      end
  | _ => None
  end.

(** A record answers the analyzer's query for [key] when its [domain]
    contains [key], letter case apart, and it has an [urheber] other than
    the empty string. *)
Definition record_matches (key : string) (r : pydict) : bool :=
  match dict_lookup "domain" r with
  | Some (PStr d) => is_substring (lowercase key) (lowercase d)
  | _ => false
  end
  &&
  match dict_lookup "urheber" r with
  | Some (PStr EmptyString) => false
  | Some _ => true
  | None => false
  end.

(** An in-memory store: [find_one] answers with the first record, in
    storage order, that matches, cut down to its [urheber]. *)
Definition mem_store (records : list pydict) : collection nat :=
  fun q _ n =>
    (match pattern_of q with
     | Some key =>
         match find (record_matches key) records with
         | Some r =>
             match dict_lookup "urheber" r with
             | Some v => Ret (PDict [("urheber", v)])
             | None => Ret (PDict [])
             end
         | None => Ret PNone
         end
     | None => Raise (mkExn "OperationFailure" "unknown operator")
     end, Datatypes.S n).

(** A store whose every query fails. *)
Definition down_store : collection nat :=
  fun _ _ n =>
    (Raise (mkExn "ServerSelectionTimeoutError" "localhost:27017: connection refused"),
     Datatypes.S n).

Definition tool_arguments : string :=
  "{" ++ quoted "query" ++ ": " ++ quoted "example.org Betreiber Impressum" ++ "}".

Definition classification_text : string :=
  "{" ++ quoted "urheber" ++ ": " ++ quoted "Unternehmen" ++ ", " ++
  quoted "begründung" ++ ": " ++ quoted "Impressum nennt die Example GmbH" ++ ", " ++
  quoted "quellen" ++ ": [" ++ quoted "https://example.org/impressum" ++ "]}".

(** A chat client that asks for the tool call, reports a finding and
    classifies. *)
Definition chat (rq : chat_request) : handler nat chat_completion :=
  fun n =>
    (Ret (mkChatCompletion
            [ mkChoice
                match rq_tools rq, rq_response_format rq with
                | Some _, _ =>
                    mkChatMessage None
                      (Some [mkToolCall "call_1"
                               (mkFunctionCall "web_search" tool_arguments)])
                | None, Some _ => mkChatMessage (Some classification_text) None
                | None, None =>
                    mkChatMessage
                      (Some "Die Website example.org wird von der Example GmbH betrieben.")
                      None
                end ]),
     Datatypes.S n).

(** A chat client that is unreachable. *)
Definition chat_down (e : exn) (rq : chat_request) : handler nat chat_completion :=
  fun n => (Raise e, Datatypes.S n).

(** Modelled from the spec: [BaseAnalyzer._process_response] is not in the
    source. Section 4.3 has the research client take a strict JSON object
    from the provider and treat a parsing error as a failure of the research,
    so the stand-in decodes the content and raises what the decoder raises. *)
Definition process_response (content : option string) : handler nat pyval :=
  fun n =>
    (match content with
     | Some s => Json.loads s
     | None =>
         Raise (mkExn "TypeError"
                      "the JSON object must be str, bytes or bytearray, not NoneType")
     end, n).

(** A Responses client whose output text is [text]. *)
Definition responses (text : string) (rq : responses_request) : handler nat response :=
  fun n => (Ret (mkResponse text), Datatypes.S n).

Definition responses_down (e : exn) (rq : responses_request) : handler nat response :=
  fun n => (Raise e, Datatypes.S n).

Definition document : pyval :=
  PDict [ ("url", PStr "https://help.example.org/x");
          ("domain_info", PDict [("domain", PStr "example"); ("tld", PStr "org")]) ].

Definition known : list pydict :=
  [ [("domain", PStr "other.net"); ("urheber", PStr "staatlich")];
    [("domain", PStr "Example.ORG"); ("urheber", PStr "Unternehmen")] ].

(** A chat client that never asks for a tool call: every answer is a plain
    message, the classification for a request in JSON mode. *)
Definition chat_plain (rq : chat_request) : handler nat chat_completion :=
  fun n =>
    (Ret (mkChatCompletion
            [ mkChoice
                match rq_response_format rq with
                | Some _ => mkChatMessage (Some classification_text) None
                | None => mkChatMessage (Some "Ich kann nicht im Web suchen.") (Some [])
                end ]),
     Datatypes.S n).

(** A chat client whose answers have no choice. *)
Definition chat_empty (rq : chat_request) : handler nat chat_completion :=
  fun n => (Ret (mkChatCompletion []), Datatypes.S n).

(** A chat client whose tool call has the arguments [arguments]. *)
Definition chat_with_arguments (arguments : string) (rq : chat_request)
    : handler nat chat_completion :=
  fun n =>
    (Ret (mkChatCompletion
            [ mkChoice
                match rq_tools rq, rq_response_format rq with
                | Some _, _ =>
                    mkChatMessage None
                      (Some [mkToolCall "call_1"
                               (mkFunctionCall "web_search" arguments)])
                | None, Some _ => mkChatMessage (Some classification_text) None
                | None, None => mkChatMessage None None
                end ]),
     Datatypes.S n).

End Demo.

(** * Vocabulary of the properties *)

(** ** Reading a document *)

(** The values [analyze] reads from a document that is a dictionary [doc]
    whose domain descriptor is a dictionary [info]. *)
Definition url_of (doc : pydict) : pyval := dict_get "url" (PStr EmptyString) doc.
Definition domain_of (info : pydict) : pyval := dict_get "domain" (PStr EmptyString) info.
Definition tld_of (info : pydict) : pyval := dict_get "tld" (PStr EmptyString) info.

(** [info] is what [document.get("domain_info", {})] gives. *)
Definition has_domain_info (doc info : pydict) : Prop :=
  dict_get "domain_info" (PDict []) doc = PDict info.

(** [domain] or [tld] is missing or empty: [not domain or not tld]. *)
Definition lacks_domain (info : pydict) : Prop :=
  truthy (domain_of info) = false \/ truthy (tld_of info) = false.

(** Both [domain] and [tld] are there and not empty. *)
Definition names_domain (info : pydict) : Prop :=
  truthy (domain_of info) = true /\ truthy (tld_of info) = true.

(** ** Result envelopes *)

(** A field of a result. *)
Definition field (k : string) (r : pyval) : option pyval :=
  match r with
  | PDict d => dict_lookup k d
  | _ => None
  end.

Definition has_method (m : string) (r : pyval) : Prop :=
  field "method" r = Some (PStr m).

Definition failed (r : pyval) : Prop :=
  has_method "failure" r \/ has_method "error" r.

(** The invariant of the data model as the specification words it, for a
    research label [label] and a research confidence [k]. *)
Definition spec_invariant (label : string) (k : Q) (r : pyval) : Prop :=
  (field "confidence" r = Some (PFloat 1) <-> has_method "database" r) /\
  (field "confidence" r = Some (PFloat k) <-> has_method label r) /\
  (field "confidence" r = Some (PInt 0) <-> failed r) /\
  (field "urheber" r = Some (PStr "unbekannt") <-> failed r).

(** The invariant the analyzers keep: a failed result is [unbekannt], and
    nothing is said of the converse. *)
Definition envelope_invariant (label : string) (k : Q) (r : pyval) : Prop :=
  (field "confidence" r = Some (PFloat 1) <-> has_method "database" r) /\
  (field "confidence" r = Some (PFloat k) <-> has_method label r) /\
  (field "confidence" r = Some (PInt 0) <-> failed r) /\
  (failed r -> field "urheber" r = Some (PStr "unbekannt")).

(** The result of a hit in the store. *)
Definition database_envelope (urheber : pyval) (full_domain : string) (r : pyval) : Prop :=
  field "urheber" r = Some urheber /\
  has_method "database" r /\
  field "confidence" r = Some (PFloat 1) /\
  field "domain" r = Some (PStr full_domain).

(** The result of a failed validation: no [domain] field. *)
Definition failure_envelope (r : pyval) : Prop :=
  has_method "failure" r /\
  field "urheber" r = Some (PStr "unbekannt") /\
  field "confidence" r = Some (PInt 0) /\
  field "domain" r = None.

(** A justification and a source list are there, under the keys of the
    prompts or under those of the specification. *)
Definition justified (r : pyval) : Prop :=
  (field "begründung" r <> None \/ field "justification" r <> None) /\
  (field "quellen" r <> None \/ field "sources" r <> None).

(** A successful research as the specification words it. *)
Definition spec_research_envelope
    (label : string) (k : Q) (full_domain category : string) (r : pyval) : Prop :=
  field "urheber" r = Some (PStr category) /\
  has_method label r /\
  field "confidence" r = Some (PFloat k) /\
  field "domain" r = Some (PStr full_domain) /\
  justified r.

(** A successful research as the analyzers build it from the object [d] the
    provider answered with: three fields are set, every other field is [d]'s. *)
Definition research_envelope
    (label : string) (k : Q) (full_domain : string) (d : pydict) (r : pyval) : Prop :=
  has_method label r /\
  field "confidence" r = Some (PFloat k) /\
  field "domain" r = Some (PStr full_domain) /\
  forall key, key <> "method" -> key <> "confidence" -> key <> "domain" ->
              field key r = dict_lookup key d.

(** A failed research as the specification words it. *)
Definition spec_error_envelope (full_domain : string) (r : pyval) : Prop :=
  has_method "error" r /\
  field "urheber" r = Some (PStr "unbekannt") /\
  field "confidence" r = Some (PInt 0) /\
  field "domain" r = Some (PStr full_domain) /\
  exists msg, field "error" r = Some (PStr msg) /\ msg <> EmptyString.

(** A failed research as the analyzers report it: [error] is [str(e)]. *)
Definition error_envelope (full_domain : string) (e : exn) (r : pyval) : Prop :=
  has_method "error" r /\
  field "urheber" r = Some (PStr "unbekannt") /\
  field "confidence" r = Some (PInt 0) /\
  field "domain" r = Some (PStr full_domain) /\
  field "error" r = Some (PStr (exn_str e)).

(** A call that returns a well-formed result, as the specification words it. *)
Definition spec_well_formed (o : outcome pyval) : Prop :=
  exists d, o = Ret (PDict d) /\
            dict_lookup "urheber" d <> None /\
            dict_lookup "confidence" d <> None /\
            dict_lookup "method" d <> None.

(** What every call on a well-formed document returns: a dictionary with a
    method and a confidence, and an [urheber] unless the method is the
    research label. *)
Definition well_formed (label : string) (o : outcome pyval) : Prop :=
  exists d m, o = Ret (PDict d) /\
              dict_lookup "method" d = Some (PStr m) /\
              dict_lookup "confidence" d <> None /\
              (m = label \/
               (In m ["database"; "failure"; "error"] /\ dict_lookup "urheber" d <> None)).

(** The decoded answer names one of the seven categories. *)
Definition names_category (answer : outcome pyval) : bool :=
  match answer with
  | Ret (PDict d) =>
      match dict_lookup "urheber" d with
      | Some (PStr c) => is_category c
      | _ => false
      end
  | _ => false
  end.

(** The closed set enforced, as the specification words it: an answer that
    names no category is reported as an error. *)
Definition spec_enforces_categories (answer : outcome pyval) (r : pyval) : Prop :=
  names_category answer = false -> has_method "error" r.

(** What the lookup of src/main.py makes of the store's answer: the value
    under [urheber] of a dictionary, and [None] for anything else. *)
Definition looked_up (answer : outcome pyval) : pyval :=
  match answer with
  | Ret (PDict rec) => dict_get "urheber" PNone rec
  | _ => PNone
  end.

(** The value on which [.get] fails when [analyze] reads a document: the
    document itself when it is no dictionary, its [domain_info] when that is
    no dictionary. *)
Definition malformed (document : pyval) : option pyval :=
  match document with
  | PDict doc =>
      match dict_get "domain_info" (PDict []) doc with
      | PDict _ => None
      | v => Some v
      end
  | v => Some v
  end.

(** The text [p] contains every one of the texts [xs]. *)
Definition contains_all (xs : list string) (p : string) : bool :=
  forallb (fun x => is_substring x p) xs.

(** The three assignments that end a successful research. *)
Definition with_metadata
    (label : string) (k : Q) (full_domain : string) (d : pydict) : pydict :=
  dict_set "domain" (PStr full_domain)
    (dict_set "confidence" (PFloat k)
       (dict_set "method" (PStr label) d)).

(** ** Collaborators *)

Section Collaborators.
Context {S : Type}.

(** The cache step of [src/main.py] misses from state [s]: there is no
    store, or the lookup returns a value that counts as false; [s1] and [l]
    are the state and the calls after it. *)
Definition cache_miss
    (c : option (collection S)) (full_domain : string) (s s1 : S) (l : list event) : Prop :=
  match c with
  | None => s1 = s /\ l = []
  | Some coll =>
      let r := MainPy._check_database_for_domain coll full_domain s in
      (exists v, res r = Ret v /\ truthy v = false) /\ s1 = st r /\ l = log r
  end.

(** A collaborator whose answer does not depend on the state it is called in. *)
Definition steady {A B} (h : A -> handler S B) : Prop :=
  forall a s s', fst (h a s) = fst (h a s').

Definition steady_store (c : option (collection S)) : Prop :=
  match c with
  | Some coll => forall q p s s', fst (coll q p s) = fst (coll q p s')
  | None => True
  end.

(** A store whose every query raises. *)
Definition always_raises (coll : collection S) : Prop :=
  forall q p s, exists e, fst (coll q p s) = Raise e.

(** A computation that makes at most [n] calls, all of the kind [P]. *)
Definition at_most (P : event -> bool) (n : nat) {A} (m : M S A) : Prop :=
  forall s, forallb P (log (m s)) = true /\ length (log (m s)) <= n.

(** A computation whose outcome and calls do not depend on the state. *)
Definition state_blind {A} (m : M S A) : Prop :=
  forall s s', res (m s) = res (m s') /\ log (m s) = log (m s').

End Collaborators.

(** Splits a statement about the fields of a concrete result and settles
    each part by evaluation. *)
Ltac field_facts :=
  unfold failed, has_method, field; simpl;
  repeat match goal with
         | |- _ /\ _ => split
         | |- _ <-> _ => split
         | |- _ -> _ => intro
         | H : _ \/ _ |- _ => destruct H
         end;
  try discriminate; try reflexivity; auto.

(** Runs a concrete call and takes what it returned as the witness of
    [exists r, outcome = Ret r /\ _]. *)
Ltac evaluated :=
  match goal with
  | |- exists r, ?o = Ret r /\ _ =>
      let v := eval vm_compute in o in
      match v with
      | Ret ?x => exists x; split; [vm_compute; reflexivity |]
      end
  end.

(** * Facts about dictionaries *)

Lemma dict_lookup_set_same (k : string) (v : pyval) (d : pydict) :
  dict_lookup k (dict_set k v d) = Some v.
Proof.
  induction d as [| [k' v'] d IH]; simpl.
  - now rewrite String.eqb_refl.
  - destruct (String.eqb k k') eqn:E; simpl; rewrite E; auto.
Qed.

Lemma dict_lookup_set_other (k k' : string) (v : pyval) (d : pydict) :
  k' <> k -> dict_lookup k' (dict_set k v d) = dict_lookup k' d.
Proof.
  intros Hne.
  induction d as [| [k0 v0] d IH]; simpl.
  - destruct (String.eqb k' k) eqn:E; auto.
    apply String.eqb_eq in E. contradiction.
  - destruct (String.eqb k k0) eqn:E; simpl.
    + apply String.eqb_eq in E. subst k0.
      destruct (String.eqb k' k) eqn:E'; auto.
      apply String.eqb_eq in E'. contradiction.
    + now rewrite IH.
Qed.

Lemma dict_lookup_nonempty (k : string) (v : pyval) (d : pydict) :
  dict_lookup k d = Some v -> truthy (PDict d) = true.
Proof. destruct d; simpl; [discriminate | reflexivity]. Qed.

(** * Facts about computations *)

Section RunFacts.
Context {S : Type}.

Lemma run_eta {A} (r : run S A) : mkRun (res r) (st r) (log r) = r.
Proof. now destruct r. Qed.

Lemma bind_lift_ret {A B} (a : A) (f : A -> M S B) (s : S) :
  bind (lift (Ret a)) f s = f a s.
Proof. unfold bind, lift; simpl. apply run_eta. Qed.

Lemma bind_lift_raise {A B} (e : exn) (f : A -> M S B) (s : S) :
  bind (lift (Raise e)) f s = mkRun (Raise e) s [].
Proof. reflexivity. Qed.

Lemma bind_ret {A B} (a : A) (f : A -> M S B) (s : S) :
  bind (ret a) f s = f a s.
Proof. apply bind_lift_ret. Qed.

(** A run that went through [m] and then [f]. *)
Lemma bind_returns {A B} (m : M S A) (f : A -> M S B) (s : S) (a : A) :
  res (m s) = Ret a ->
  bind m f s = mkRun (res (f a (st (m s)))) (st (f a (st (m s))))
                     (log (m s) ++ log (f a (st (m s))))%list.
Proof. intros H. unfold bind. now rewrite H. Qed.

Lemma bind_raises {A B} (m : M S A) (f : A -> M S B) (s : S) (e : exn) :
  res (m s) = Raise e ->
  bind m f s = mkRun (Raise e) (st (m s)) (log (m s)).
Proof. intros H. unfold bind. now rewrite H. Qed.

Lemma bind_res_raises {A B} (m : M S A) (f : A -> M S B) (s : S) (e : exn) :
  res (m s) = Raise e -> res (bind m f s) = Raise e.
Proof. intros H. now rewrite (bind_raises _ _ _ _ H). Qed.

Lemma bind_res_inv {A B} (m : M S A) (f : A -> M S B) (s : S) (b : B) :
  res (bind m f s) = Ret b ->
  exists a, res (m s) = Ret a /\ res (f a (st (m s))) = Ret b.
Proof.
  unfold bind. destruct (res (m s)) as [a | e] eqn:E; simpl; intros H.
  - now exists a.
  - discriminate.
Qed.

Lemma try_except_returns {A} (m : M S A) (h : exn -> M S A) (s : S) (a : A) :
  res (m s) = Ret a -> try_except m h s = m s.
Proof. intros H. unfold try_except. now rewrite H. Qed.

Lemma try_except_raises {A} (m : M S A) (h : exn -> M S A) (s : S) (e : exn) :
  res (m s) = Raise e ->
  try_except m h s = mkRun (res (h e (st (m s)))) (st (h e (st (m s))))
                           (log (m s) ++ log (h e (st (m s))))%list.
Proof. intros H. unfold try_except. now rewrite H. Qed.

(** A handler that returns catches everything. *)
Lemma try_except_total {A} (m : M S A) (f : exn -> A) (s : S) :
  exists a, res (try_except m (fun e => ret (f e)) s) = Ret a.
Proof.
  unfold try_except. destruct (res (m s)) as [a | e] eqn:E.
  - now exists a.
  - now exists (f e).
Qed.

(** ** Computations that do not look at the state *)

Lemma state_blind_lift {A} (o : outcome A) : state_blind (S := S) (lift o).
Proof. now split. Qed.

Lemma state_blind_ret {A} (a : A) : state_blind (S := S) (ret a).
Proof. now split. Qed.

Lemma state_blind_call {A} (ev : event) (h : handler S A) :
  (forall s s', fst (h s) = fst (h s')) -> state_blind (call ev h).
Proof. intros H s s'. unfold call; simpl. split; [apply H | reflexivity]. Qed.

Lemma state_blind_internal {A} (h : handler S A) :
  (forall s s', fst (h s) = fst (h s')) -> state_blind (internal h).
Proof. intros H s s'. unfold internal; simpl. split; [apply H | reflexivity]. Qed.

Lemma state_blind_bind {A B} (m : M S A) (f : A -> M S B) :
  state_blind m -> (forall a, state_blind (f a)) -> state_blind (bind m f).
Proof.
  intros Hm Hf s s'. unfold bind.
  destruct (Hm s s') as [Hr Hl]. rewrite <- Hr, <- Hl.
  destruct (res (m s)) as [a | e]; simpl.
  - destruct (Hf a (st (m s)) (st (m s'))) as [Hr' Hl'].
    now rewrite Hr', Hl'.
  - now split.
Qed.

Lemma state_blind_try_except {A} (m : M S A) (h : exn -> M S A) :
  state_blind m -> (forall e, state_blind (h e)) -> state_blind (try_except m h).
Proof.
  intros Hm Hh s s'. unfold try_except.
  destruct (Hm s s') as [Hr Hl].
  destruct (res (m s)) as [a | e] eqn:E; rewrite <- Hr; simpl.
  - now rewrite E, Hl.
  - destruct (Hh e (st (m s)) (st (m s'))) as [Hr' Hl'].
    now rewrite Hr', Hl', Hl.
Qed.

End RunFacts.

(** * Facts about result envelopes *)

Lemma with_metadata_envelope (label : string) (k : Q) (full : string) (d : pydict) :
  research_envelope label k full d (PDict (with_metadata label k full d)).
Proof.
  unfold research_envelope, has_method, with_metadata; simpl.
  repeat split.
  - rewrite dict_lookup_set_other by discriminate.
    rewrite dict_lookup_set_other by discriminate.
    apply dict_lookup_set_same.
  - rewrite dict_lookup_set_other by discriminate.
    apply dict_lookup_set_same.
  - apply dict_lookup_set_same.
  - intros key Hm Hc Hd.
    now rewrite !dict_lookup_set_other.
Qed.

Lemma new_metadata_update (full : string) (d : pydict) :
  dict_update (NewPy.metadata full) d
  = with_metadata "responses_api_web_search" (9 # 10) full d.
Proof. reflexivity. Qed.

Lemma main_error_envelope (e : exn) (full : string) :
  error_envelope full e (MainPy.error_result e full).
Proof. repeat split. Qed.

Lemma new_error_envelope (e : exn) (full : string) :
  error_envelope full e (NewPy.error_result e full).
Proof. repeat split. Qed.

Lemma main_database_envelope (v : pyval) (full : string) :
  database_envelope v full (MainPy.database_result v full).
Proof. repeat split. Qed.

Lemma main_failure_envelope : failure_envelope MainPy.failure_result.
Proof. repeat split. Qed.

Lemma new_failure_envelope : failure_envelope NewPy.failure_result.
Proof. repeat split. Qed.

(** ** The invariant on each kind of result *)

Lemma invariant_failure_main :
  envelope_invariant "web_search" (8 # 10) MainPy.failure_result.
Proof. unfold envelope_invariant. field_facts. Qed.

Lemma invariant_failure_new :
  envelope_invariant "responses_api_web_search" (9 # 10) NewPy.failure_result.
Proof. unfold envelope_invariant. field_facts. Qed.

Lemma invariant_error_main (e : exn) (full : string) :
  envelope_invariant "web_search" (8 # 10) (MainPy.error_result e full).
Proof. unfold envelope_invariant. field_facts. Qed.

Lemma invariant_error_new (e : exn) (full : string) :
  envelope_invariant "responses_api_web_search" (9 # 10) (NewPy.error_result e full).
Proof. unfold envelope_invariant. field_facts. Qed.

Lemma invariant_database (v : pyval) (full : string) :
  envelope_invariant "web_search" (8 # 10) (MainPy.database_result v full).
Proof. unfold envelope_invariant. field_facts. Qed.

Lemma invariant_research (label : string) (k : Q) (full : string) (d : pydict) :
  label <> "database" -> label <> "failure" -> label <> "error" ->
  k <> 1%Q ->
  envelope_invariant label k (PDict (with_metadata label k full d)).
Proof.
  intros Hdb Hf He Hk.
  destruct (with_metadata_envelope label k full d) as (Hm & Hc & _ & _).
  unfold envelope_invariant, failed, has_method in *.
  rewrite Hm, Hc.
  repeat split; intros H;
    try (injection H as H; congruence);
    try (destruct H as [H | H]; injection H as H; congruence);
    try discriminate; auto.
Qed.

(** * Facts about src/main.py *)

Section MainFacts.
Context {S : Type}.
Variable py : python.
Variable chat_completions_create : chat_request -> handler S chat_completion.
Variable _process_response : option string -> handler S pyval.

(** The lookup makes one query and returns, whatever the store does. *)
Lemma check_database_run (coll : collection S) (domain : string) (s : S) :
  exists v,
    MainPy._check_database_for_domain coll domain s
    = mkRun (Ret v) (snd (coll (MainPy.query domain) MainPy.projection s))
            [EvFindOne (MainPy.query domain) MainPy.projection].
Proof.
  unfold MainPy._check_database_for_domain, try_except, bind, call, lift, ret; simpl.
  destruct (fst (coll (MainPy.query domain) MainPy.projection s)) as [result | e]; simpl.
  - destruct (truthy result); simpl.
    + destruct (py_contains "urheber" result) as [[|] | e]; simpl.
      * destruct (py_getitem result "urheber") as [v | e]; simpl; eauto.
      * eauto.
      * eauto.
    + eauto.
  - eauto.
Qed.

Lemma check_database_hit (coll : collection S) (domain : string) (s s1 : S)
    (rec : pydict) (v : pyval) :
  coll (MainPy.query domain) MainPy.projection s = (Ret (PDict rec), s1) ->
  dict_lookup "urheber" rec = Some v ->
  MainPy._check_database_for_domain coll domain s
  = mkRun (Ret v) s1 [EvFindOne (MainPy.query domain) MainPy.projection].
Proof.
  intros Hq Hv.
  unfold MainPy._check_database_for_domain, try_except, bind, call, lift, ret; simpl.
  rewrite Hq. cbn [fst snd res st log].
  rewrite (dict_lookup_nonempty _ _ _ Hv).
  unfold py_contains, py_getitem. rewrite Hv. reflexivity.
Qed.

Lemma check_database_raise (coll : collection S) (domain : string) (s : S) (e : exn) :
  fst (coll (MainPy.query domain) MainPy.projection s) = Raise e ->
  MainPy._check_database_for_domain coll domain s
  = mkRun (Ret PNone) (snd (coll (MainPy.query domain) MainPy.projection s))
          [EvFindOne (MainPy.query domain) MainPy.projection].
Proof.
  intros Hq.
  unfold MainPy._check_database_for_domain, try_except, bind, call, lift, ret; simpl.
  rewrite Hq. reflexivity.
Qed.

(** [analyze] on a document that names a domain, after validation. *)
Lemma main_analyze_names_domain
    (doc info : pydict) (c : option (collection S)) (s : S) :
  has_domain_info doc info -> names_domain info ->
  MainPy.analyze py chat_completions_create _process_response (PDict doc) c s
  = let full := MainPy.full_domain_of py (domain_of info) (tld_of info) in
    let research :=
      MainPy._research_domain_with_web_search
        py chat_completions_create _process_response full (url_of doc) in
    match c with
    | Some coll =>
        bind (MainPy._check_database_for_domain coll full)
             (fun existing_urheber =>
                if truthy existing_urheber
                then ret (MainPy.database_result existing_urheber full)
                else research) s
    | None => research s
    end.
Proof.
  unfold has_domain_info, names_domain, domain_of, tld_of.
  intros Hinfo [Hd Ht].
  unfold MainPy.analyze; simpl.
  rewrite !bind_lift_ret. rewrite Hinfo; simpl.
  rewrite !bind_lift_ret. rewrite Hd, Ht; simpl.
  now destruct c.
Qed.

Lemma main_analyze_lacks_domain
    (doc info : pydict) (c : option (collection S)) (s : S) :
  has_domain_info doc info -> lacks_domain info ->
  MainPy.analyze py chat_completions_create _process_response (PDict doc) c s
  = mkRun (Ret MainPy.failure_result) s [].
Proof.
  unfold has_domain_info, lacks_domain, domain_of, tld_of.
  intros Hinfo Hlack.
  unfold MainPy.analyze; simpl.
  rewrite !bind_lift_ret. rewrite Hinfo; simpl.
  rewrite !bind_lift_ret.
  destruct Hlack as [H | H]; rewrite H; simpl.
  - reflexivity.
  - rewrite orb_true_r. reflexivity.
Qed.

(** After a miss, [analyze] is the research, run from the state the lookup
    left, with the lookup's calls before its own. *)
Lemma main_analyze_after_miss
    (doc info : pydict) (c : option (collection S)) (s s1 : S) (l : list event) :
  has_domain_info doc info -> names_domain info ->
  let full := MainPy.full_domain_of py (domain_of info) (tld_of info) in
  let r := MainPy._research_domain_with_web_search
             py chat_completions_create _process_response full (url_of doc) s1 in
  cache_miss c full s s1 l ->
  MainPy.analyze py chat_completions_create _process_response (PDict doc) c s
  = mkRun (res r) (st r) (l ++ log r)%list.
Proof.
  intros Hinfo Hnames full r Hmiss.
  rewrite (main_analyze_names_domain doc info c s Hinfo Hnames); simpl.
  destruct c as [coll |]; simpl in Hmiss.
  - destruct Hmiss as [[v [Hv Hfalse]] [Hs1 Hl]].
    fold full in Hv, Hs1, Hl |- *.
    rewrite (bind_returns _ _ _ _ Hv). rewrite Hfalse.
    subst s1 l. reflexivity.
  - destruct Hmiss as [Hs1 Hl]. subst s1 l. simpl.
    symmetry. apply run_eta.
Qed.

(** ** The research step *)

Lemma research_attempt_returns
    (domain : string) (url : pyval) (s s2 s3 : S) (l2 : list event)
    (content : option string) (d : pydict) :
  MainPy.classification_content py chat_completions_create domain url s
    = mkRun (Ret content) s2 l2 ->
  _process_response content s2 = (Ret (PDict d), s3) ->
  MainPy.research_attempt py chat_completions_create _process_response domain url s
  = mkRun (Ret (PDict (with_metadata "web_search" (8 # 10) domain d))) s3 l2.
Proof.
  intros Hc Hp.
  unfold MainPy.research_attempt.
  unfold bind at 1. rewrite Hc; simpl.
  unfold bind, internal, lift, ret; simpl. rewrite Hp; simpl.
  now rewrite !app_nil_r.
Qed.

Lemma research_attempt_process_raises
    (domain : string) (url : pyval) (s s2 : S) (l2 : list event)
    (content : option string) (e : exn) :
  MainPy.classification_content py chat_completions_create domain url s
    = mkRun (Ret content) s2 l2 ->
  fst (_process_response content s2) = Raise e ->
  res (MainPy.research_attempt py chat_completions_create _process_response domain url s)
  = Raise e.
Proof.
  intros Hc Hp.
  unfold MainPy.research_attempt.
  unfold bind at 1. rewrite Hc; simpl.
  unfold bind, internal, lift, ret; simpl. rewrite Hp; simpl.
  reflexivity.
Qed.

Lemma research_attempt_not_a_dict
    (domain : string) (url : pyval) (s s2 : S) (l2 : list event)
    (content : option string) (v : pyval) :
  MainPy.classification_content py chat_completions_create domain url s
    = mkRun (Ret content) s2 l2 ->
  fst (_process_response content s2) = Ret v ->
  (forall d, v <> PDict d) ->
  exists e,
    res (MainPy.research_attempt py chat_completions_create _process_response domain url s)
    = Raise e.
Proof.
  intros Hc Hp Hv.
  unfold MainPy.research_attempt.
  unfold bind at 1. rewrite Hc; simpl.
  unfold bind, internal, lift, ret; simpl. rewrite Hp; simpl.
  destruct v; simpl; eauto.
  now destruct (Hv d).
Qed.

Lemma research_attempt_client_raises
    (domain : string) (url : pyval) (s : S) (e : exn) :
  fst (chat_completions_create (MainPy.search_request py domain url) s) = Raise e ->
  res (MainPy.research_attempt py chat_completions_create _process_response domain url s)
  = Raise e.
Proof.
  intros H.
  unfold MainPy.research_attempt. apply bind_res_raises.
  unfold MainPy.classification_content. apply bind_res_raises.
  unfold MainPy.web_search. apply bind_res_raises.
  exact H.
Qed.

(** What the suite of the [try] returns, when it returns. *)
Lemma research_attempt_inv (domain : string) (url : pyval) (s : S) (r : pyval) :
  res (MainPy.research_attempt py chat_completions_create _process_response domain url s)
    = Ret r ->
  exists d, r = PDict (with_metadata "web_search" (8 # 10) domain d).
Proof.
  unfold MainPy.research_attempt. intros H.
  apply bind_res_inv in H. destruct H as [content [_ H]].
  apply bind_res_inv in H. destruct H as [result [_ H]].
  destruct result; cbn in H; try discriminate H.
  injection H as H. subst r. now exists d.
Qed.

(** The research step returns a result, tagged by it or an error. *)
Lemma main_research_cases (domain : string) (url : pyval) (s : S) :
  let r := MainPy._research_domain_with_web_search
             py chat_completions_create _process_response domain url s in
  (exists d, res r = Ret (PDict (with_metadata "web_search" (8 # 10) domain d))) \/
  (exists e, res r = Ret (MainPy.error_result e domain)).
Proof.
  unfold MainPy._research_domain_with_web_search; simpl.
  destruct (res (MainPy.research_attempt py chat_completions_create
                   _process_response domain url s)) as [r | e] eqn:E.
  - left. destruct (research_attempt_inv _ _ _ _ E) as [d Hd].
    exists d. rewrite (try_except_returns _ _ _ _ E). now rewrite E, Hd.
  - right. exists e. now rewrite (try_except_raises _ _ _ _ E).
Qed.

Lemma main_research_raises (domain : string) (url : pyval) (s : S) (e : exn) :
  res (MainPy.research_attempt py chat_completions_create _process_response domain url s)
    = Raise e ->
  res (MainPy._research_domain_with_web_search
         py chat_completions_create _process_response domain url s)
  = Ret (MainPy.error_result e domain).
Proof.
  intros E. unfold MainPy._research_domain_with_web_search.
  now rewrite (try_except_raises _ _ _ _ E).
Qed.

End MainFacts.

(** * Facts about src/new.py *)

Section NewFacts.
Context {S : Type}.
Variable py : python.
Variable responses_create : responses_request -> handler S response.

Lemma new_analyze_lacks_domain
    (doc info : pydict) (c : option (collection S)) (s : S) :
  has_domain_info doc info -> lacks_domain info ->
  NewPy.analyze py responses_create (PDict doc) c s
  = mkRun (Ret NewPy.failure_result) s [].
Proof.
  unfold has_domain_info, lacks_domain, domain_of, tld_of.
  intros Hinfo Hlack.
  unfold NewPy.analyze; simpl.
  rewrite !bind_lift_ret. rewrite Hinfo; simpl.
  rewrite !bind_lift_ret.
  destruct Hlack as [H | H]; rewrite H; simpl.
  - reflexivity.
  - rewrite orb_true_r. reflexivity.
Qed.

(** [analyze] on a document that names a domain is the research step:
    no store is consulted. *)
Lemma new_analyze_names_domain
    (doc info : pydict) (c : option (collection S)) (s : S) :
  has_domain_info doc info -> names_domain info ->
  NewPy.analyze py responses_create (PDict doc) c s
  = NewPy.research py responses_create
      (NewPy.full_domain_of py (domain_of info) (tld_of info)) (url_of doc) s.
Proof.
  unfold has_domain_info, names_domain, domain_of, tld_of.
  intros Hinfo [Hd Ht].
  unfold NewPy.analyze; simpl.
  rewrite !bind_lift_ret. rewrite Hinfo; simpl.
  rewrite !bind_lift_ret. rewrite Hd, Ht; simpl.
  reflexivity.
Qed.

Lemma new_attempt_client_raises (full : string) (url : pyval) (s : S) (e : exn) :
  fst (responses_create (NewPy.request py full url) s) = Raise e ->
  res (NewPy.research_attempt py responses_create full url s) = Raise e.
Proof.
  intros H. unfold NewPy.research_attempt, bind, call; simpl.
  now rewrite H.
Qed.

Lemma new_attempt_decoded
    (full : string) (url : pyval) (s s1 : S) (text : string) :
  responses_create (NewPy.request py full url) s = (Ret (mkResponse text), s1) ->
  NewPy.research_attempt py responses_create full url s
  = mkRun match json_loads py text with
          | Ret v => py_update v (NewPy.metadata full)
          | Raise e => Raise e
          end
          s1 [EvResponsesCreate (NewPy.request py full url)].
Proof.
  intros H. unfold NewPy.research_attempt, bind, call, lift; simpl.
  rewrite H; simpl.
  destruct (json_loads py text) as [v | e]; simpl; reflexivity.
Qed.

Lemma new_attempt_inv (full : string) (url : pyval) (s : S) (r : pyval) :
  res (NewPy.research_attempt py responses_create full url s) = Ret r ->
  exists d, r = PDict (with_metadata "responses_api_web_search" (9 # 10) full d).
Proof.
  unfold NewPy.research_attempt. intros H.
  apply bind_res_inv in H. destruct H as [response [_ H]].
  apply bind_res_inv in H. destruct H as [result [_ H]].
  destruct result; cbn in H; try discriminate H.
  injection H as H. subst r. now exists d.
Qed.

Lemma new_research_cases (full : string) (url : pyval) (s : S) :
  let r := NewPy.research py responses_create full url s in
  (exists d, res r
             = Ret (PDict (with_metadata "responses_api_web_search" (9 # 10) full d))) \/
  (exists e, res r = Ret (NewPy.error_result e full)).
Proof.
  unfold NewPy.research; simpl.
  destruct (res (NewPy.research_attempt py responses_create full url s))
    as [r | e] eqn:E.
  - left. destruct (new_attempt_inv _ _ _ _ E) as [d Hd].
    exists d. rewrite (try_except_returns _ _ _ _ E). now rewrite E, Hd.
  - right. exists e. now rewrite (try_except_raises _ _ _ _ E).
Qed.

Lemma new_research_raises (full : string) (url : pyval) (s : S) (e : exn) :
  res (NewPy.research_attempt py responses_create full url s) = Raise e ->
  res (NewPy.research py responses_create full url s)
  = Ret (NewPy.error_result e full).
Proof.
  intros E. unfold NewPy.research.
  now rewrite (try_except_raises _ _ _ _ E).
Qed.

Lemma new_research_returns (full : string) (url : pyval) (s : S) (r : pyval) :
  res (NewPy.research_attempt py responses_create full url s) = Ret r ->
  res (NewPy.research py responses_create full url s) = Ret r.
Proof.
  intros E. unfold NewPy.research.
  now rewrite (try_except_returns _ _ _ _ E).
Qed.

(** The research step calls the client once, and nothing else. *)
Lemma new_research_log (full : string) (url : pyval) (s : S) :
  log (NewPy.research py responses_create full url s)
  = [EvResponsesCreate (NewPy.request py full url)].
Proof.
  unfold NewPy.research, NewPy.research_attempt, try_except, bind, call, lift, ret; simpl.
  destruct (fst (responses_create (NewPy.request py full url) s)) as [response | e]; simpl.
  - destruct (json_loads py (output_text response)) as [v | e]; simpl.
    + destruct (py_update v (NewPy.metadata full)); reflexivity.
    + reflexivity.
  - reflexivity.
Qed.

End NewFacts.

(** * Collaborators that answer alike in every state *)

Create HintDb blind.
#[global] Hint Resolve state_blind_ret state_blind_lift state_blind_bind
  state_blind_try_except state_blind_call state_blind_internal : blind.
#[global] Hint Extern 2 (state_blind (if ?b then _ else _)) => destruct b : blind.
#[global] Hint Extern 2 (state_blind (match ?x with _ => _ end)) => destruct x : blind.

Section Steady.
Context {S : Type}.
Variable py : python.
Variable chat_completions_create : chat_request -> handler S chat_completion.
Variable _process_response : option string -> handler S pyval.
Variable responses_create : responses_request -> handler S response.
Hypothesis steady_chat : steady chat_completions_create.
Hypothesis steady_process : steady _process_response.
Hypothesis steady_responses : steady responses_create.

Lemma check_database_blind (coll : collection S) (domain : string) :
  steady_store (Some coll) ->
  state_blind (MainPy._check_database_for_domain coll domain).
Proof.
  intros Hc. unfold MainPy._check_database_for_domain. simpl in Hc.
  auto 20 with blind.
Qed.

Lemma main_research_blind (domain : string) (url : pyval) :
  state_blind (MainPy._research_domain_with_web_search
                 py chat_completions_create _process_response domain url).
Proof.
  unfold steady in *.
  unfold MainPy._research_domain_with_web_search, MainPy.research_attempt,
    MainPy.classification_content, MainPy.web_search.
  auto 30 with blind.
Qed.

Lemma main_analyze_blind (document : pyval) (c : option (collection S)) :
  steady_store c ->
  state_blind (MainPy.analyze py chat_completions_create _process_response document c).
Proof.
  intros Hc. unfold MainPy.analyze.
  repeat (apply state_blind_bind; [apply state_blind_lift | intros ?]).
  destruct c as [coll |];
    auto 10 using check_database_blind, main_research_blind with blind.
Qed.

Lemma new_analyze_blind (document : pyval) (c : option (collection S)) :
  state_blind (NewPy.analyze py responses_create document c).
Proof.
  unfold steady in *.
  unfold NewPy.analyze, NewPy.research, NewPy.research_attempt.
  auto 20 with blind.
Qed.

End Steady.

(** * The kinds of result *)

Lemma lacks_or_names (info : pydict) : lacks_domain info \/ names_domain info.
Proof.
  unfold lacks_domain, names_domain.
  destruct (truthy (domain_of info)), (truthy (tld_of info)); auto.
Qed.

Section Cases.
Context {S : Type}.
Variable py : python.
Variable chat_completions_create : chat_request -> handler S chat_completion.
Variable _process_response : option string -> handler S pyval.
Variable responses_create : responses_request -> handler S response.

(** Every call of [analyze] of src/main.py on a dictionary with a domain
    descriptor returns one of four results. *)
Lemma main_analyze_cases (doc info : pydict) (c : option (collection S)) (s : S) :
  has_domain_info doc info ->
  let full := MainPy.full_domain_of py (domain_of info) (tld_of info) in
  let r := MainPy.analyze py chat_completions_create _process_response (PDict doc) c s in
  res r = Ret MainPy.failure_result \/
  (exists v, c <> None /\ truthy v = true /\ res r = Ret (MainPy.database_result v full)) \/
  (exists d, res r = Ret (PDict (with_metadata "web_search" (8 # 10) full d))) \/
  (exists e, res r = Ret (MainPy.error_result e full)).
Proof.
  intros Hinfo full r. subst r.
  destruct (lacks_or_names info) as [Hlack | Hnames].
  - left. now rewrite (main_analyze_lacks_domain _ _ _ _ _ _ _ Hinfo Hlack).
  - right.
    rewrite (main_analyze_names_domain _ _ _ _ _ _ _ Hinfo Hnames); simpl.
    fold full.
    destruct c as [coll |].
    + destruct (check_database_run coll full s) as [v Hv].
      rewrite (bind_returns _ _ _ v) by now rewrite Hv.
      rewrite Hv; simpl.
      destruct (truthy v) eqn:Tv.
      * left. exists v.
        split; [discriminate | split; [exact Tv | reflexivity]].
      * right. apply main_research_cases.
    + right. apply main_research_cases.
Qed.

(** [analyze] of src/new.py returns one of three. *)
Lemma new_analyze_cases (doc info : pydict) (c : option (collection S)) (s : S) :
  has_domain_info doc info ->
  let full := NewPy.full_domain_of py (domain_of info) (tld_of info) in
  let r := NewPy.analyze py responses_create (PDict doc) c s in
  res r = Ret NewPy.failure_result \/
  (exists d, res r
             = Ret (PDict (with_metadata "responses_api_web_search" (9 # 10) full d))) \/
  (exists e, res r = Ret (NewPy.error_result e full)).
Proof.
  intros Hinfo full r. subst r.
  destruct (lacks_or_names info) as [Hlack | Hnames].
  - left. now rewrite (new_analyze_lacks_domain _ _ _ _ _ _ Hinfo Hlack).
  - right. rewrite (new_analyze_names_domain _ _ _ _ _ _ Hinfo Hnames).
    apply new_research_cases.
Qed.

(** A call that returns was given a dictionary with a domain descriptor. *)
Lemma main_analyze_returns_inv (document : pyval) (c : option (collection S)) (s : S)
    (r : pyval) :
  res (MainPy.analyze py chat_completions_create _process_response document c s) = Ret r ->
  exists doc info, document = PDict doc /\ has_domain_info doc info.
Proof.
  intros H. destruct document as [| | | | | | doc]; try discriminate H.
  exists doc. unfold has_domain_info.
  destruct (dict_get "domain_info" (PDict []) doc) as [| | | | | | info] eqn:E;
    try (unfold MainPy.analyze, bind, lift in H; simpl in H;
         rewrite E in H; discriminate H).
  now exists info.
Qed.

Lemma new_analyze_returns_inv (document : pyval) (c : option (collection S)) (s : S)
    (r : pyval) :
  res (NewPy.analyze py responses_create document c s) = Ret r ->
  exists doc info, document = PDict doc /\ has_domain_info doc info.
Proof.
  intros H. destruct document as [| | | | | | doc]; try discriminate H.
  exists doc. unfold has_domain_info.
  destruct (dict_get "domain_info" (PDict []) doc) as [| | | | | | info] eqn:E;
    try (unfold NewPy.analyze, bind, lift in H; simpl in H;
         rewrite E in H; discriminate H).
  now exists info.
Qed.

End Cases.

(** * The store of the examples *)

(** The in-memory store answers the analyzer's query with the first record
    that matches. *)
Lemma mem_store_answers (records : list pydict) (key : string) (n : nat)
    (rec : pydict) (v : pyval) :
  find (Demo.record_matches key) records = Some rec ->
  dict_lookup "urheber" rec = Some v ->
  Demo.mem_store records (MainPy.query key) MainPy.projection n
  = (Ret (PDict [("urheber", v)]), Datatypes.S n).
Proof.
  intros Hfind Hv. unfold Demo.mem_store. simpl.
  now rewrite Hfind, Hv.
Qed.

Lemma mem_store_empty (records : list pydict) (key : string) (n : nat) :
  find (Demo.record_matches key) records = None ->
  Demo.mem_store records (MainPy.query key) MainPy.projection n
  = (Ret PNone, Datatypes.S n).
Proof.
  intros Hfind. unfold Demo.mem_store. simpl.
  now rewrite Hfind.
Qed.

(** * The example of the specification *)

Example example_store_empty :
  exists r,
    res (MainPy.analyze Demo.python Demo.chat Demo.process_response
           Demo.document (Some (Demo.mem_store [])) 0) = Ret r /\
    has_method "web_search" r.
Proof. evaluated. reflexivity. Qed.

Example example_store_knows :
  res (MainPy.analyze Demo.python Demo.chat Demo.process_response
         Demo.document
         (Some (Demo.mem_store [[("domain", PStr "example.org");
                                 ("urheber", PStr "Unternehmen")]])) 0)
  = Ret (PDict [ ("urheber", PStr "Unternehmen");
                 ("confidence", PFloat 1);
                 ("method", PStr "database");
                 ("domain", PStr "example.org") ]).
Proof. vm_compute. reflexivity. Qed.

(** * The cache tier *)

(** The run of [analyze] of src/main.py on a hit. *)
Lemma main_analyze_hit {S : Type}
    (py : python)
    (chat_completions_create : chat_request -> handler S chat_completion)
    (_process_response : option string -> handler S pyval)
    (doc info : pydict) (coll : collection S) (s s1 : S)
    (rec : pydict) (v : pyval) :
  has_domain_info doc info -> names_domain info ->
  let full := MainPy.full_domain_of py (domain_of info) (tld_of info) in
  coll (MainPy.query full) MainPy.projection s = (Ret (PDict rec), s1) ->
  dict_lookup "urheber" rec = Some v -> truthy v = true ->
  MainPy.analyze py chat_completions_create _process_response (PDict doc) (Some coll) s
  = mkRun (Ret (MainPy.database_result v full)) s1
          [EvFindOne (MainPy.query full) MainPy.projection].
Proof.
  intros Hinfo Hnames full Hq Hv Htrue.
  rewrite (main_analyze_names_domain _ _ _ _ _ _ _ Hinfo Hnames); simpl.
  fold full.
  pose proof (check_database_hit coll full s s1 rec v Hq Hv) as Hcheck.
  rewrite (bind_returns _ _ _ v) by now rewrite Hcheck.
  rewrite Hcheck; simpl. now rewrite Htrue.
Qed.

(** C1, as the code has it. On a document that names a domain, with a
    store whose lookup for the key [domain.tld] answers with a record that
    carries a non-empty [urheber], [analyze] of src/main.py returns that
    value with method [database], confidence 1.0 and the full domain; the
    store was queried once and the research client was not called, whatever
    it would have answered. [analyze] of src/new.py has no cache tier: it
    does not query the store and calls the research client. *)
Theorem analyze_database_hit {S : Type}
    (py : python)
    (chat_completions_create : chat_request -> handler S chat_completion)
    (_process_response : option string -> handler S pyval)
    (responses_create : responses_request -> handler S response)
    (doc info : pydict) (coll : collection S) (s s1 : S)
    (rec : pydict) (v : pyval) :
  has_domain_info doc info -> names_domain info ->
  let full := MainPy.full_domain_of py (domain_of info) (tld_of info) in
  coll (MainPy.query full) MainPy.projection s = (Ret (PDict rec), s1) ->
  dict_lookup "urheber" rec = Some v -> truthy v = true ->
  let r := MainPy.analyze py chat_completions_create _process_response
             (PDict doc) (Some coll) s in
  let r' := NewPy.analyze py responses_create (PDict doc) (Some coll) s in
  ((exists result, res r = Ret result /\ database_envelope v full result) /\
   log r = [EvFindOne (MainPy.query full) MainPy.projection] /\
   store_calls (log r) = 1 /\
   research_calls (log r) = 0 /\
   st r = s1) /\
  (r' = NewPy.research py responses_create
          (NewPy.full_domain_of py (domain_of info) (tld_of info)) (url_of doc) s /\
   store_calls (log r') = 0 /\
   research_calls (log r') = 1).
Proof.
  intros Hinfo Hnames full Hq Hv Htrue r r'. subst r r'. split.
  - rewrite (main_analyze_hit py chat_completions_create _process_response
               doc info coll s s1 rec v Hinfo Hnames Hq Hv Htrue).
    simpl. repeat split.
    exists (MainPy.database_result v full).
    split; [reflexivity | apply main_database_envelope].
  - rewrite (new_analyze_names_domain py responses_create doc info (Some coll) s
               Hinfo Hnames).
    rewrite new_research_log. repeat split.
Qed.

Lemma analyze_database_hit_witness :
  let r := MainPy.analyze Demo.python Demo.chat Demo.process_response
             Demo.document (Some (Demo.mem_store Demo.known)) 0 in
  let r' := NewPy.analyze Demo.python (Demo.responses Demo.classification_text)
              Demo.document (Some (Demo.mem_store Demo.known)) 0 in
  ((exists result, res r = Ret result /\
                   database_envelope (PStr "Unternehmen") "example.org" result) /\
   log r = [EvFindOne (MainPy.query "example.org") MainPy.projection] /\
   store_calls (log r) = 1 /\
   research_calls (log r) = 0 /\
   st r = 1) /\
  (r' = NewPy.research Demo.python (Demo.responses Demo.classification_text)
          "example.org" (PStr "https://help.example.org/x") 0 /\
   store_calls (log r') = 0 /\
   research_calls (log r') = 1).
Proof.
  apply (analyze_database_hit Demo.python Demo.chat Demo.process_response
           (Demo.responses Demo.classification_text)
           [ ("url", PStr "https://help.example.org/x");
             ("domain_info", PDict [("domain", PStr "example"); ("tld", PStr "org")]) ]
           [("domain", PStr "example"); ("tld", PStr "org")]
           (Demo.mem_store Demo.known) 0 1
           [("urheber", PStr "Unternehmen")] (PStr "Unternehmen")).
  - reflexivity.
  - split; reflexivity.
  - reflexivity.
  - reflexivity.
  - reflexivity.
Defined.

(** C1, as the specification words it, fails for src/new.py. With the
    record of the example stored for the domain, its [analyze] does not
    return the stored value with method [database]: it leaves the store
    alone, calls the research client and returns what that answers. *)
Lemma new_analyze_ignores_store :
  let store := Demo.mem_store [[("domain", PStr "example.org");
                                ("urheber", PStr "Unternehmen")]] in
  let text := "{" ++ quoted "urheber" ++ ": " ++ quoted "Privatperson" ++ "}" in
  let r := NewPy.analyze Demo.python (Demo.responses text) Demo.document (Some store) 0 in
  fst (store (MainPy.query "example.org") MainPy.projection 0)
  = Ret (PDict [("urheber", PStr "Unternehmen")]) /\
  (exists result,
      res r = Ret result /\
      field "urheber" result = Some (PStr "Privatperson") /\
      has_method "responses_api_web_search" result /\
      ~ database_envelope (PStr "Unternehmen") "example.org" result) /\
  store_calls (log r) = 0 /\
  research_calls (log r) = 1.
Proof.
  intros store text r. subst store text r.
  split; [vm_compute; reflexivity |].
  split; [| split; vm_compute; reflexivity].
  evaluated.
  split; [reflexivity |]. split; [reflexivity |].
  intros (Hu & _). discriminate Hu.
Qed.

(** The same on the in-memory store: when some stored record's domain
    contains the key, letter case apart, and has a non-empty string as
    [urheber], the first such record decides. *)
Lemma analyze_known_domain
    (py : python)
    (chat_completions_create : chat_request -> handler nat chat_completion)
    (_process_response : option string -> handler nat pyval)
    (doc info : pydict) (records : list pydict) (rec : pydict) (u : string) (n : nat) :
  has_domain_info doc info -> names_domain info ->
  let full := MainPy.full_domain_of py (domain_of info) (tld_of info) in
  find (Demo.record_matches full) records = Some rec ->
  dict_lookup "urheber" rec = Some (PStr u) ->
  let r := MainPy.analyze py chat_completions_create _process_response
             (PDict doc) (Some (Demo.mem_store records)) n in
  res r = Ret (MainPy.database_result (PStr u) full) /\
  research_calls (log r) = 0.
Proof.
  intros Hinfo Hnames full Hfind Hu r.
  assert (Htrue : truthy (PStr u) = true).
  { apply find_some in Hfind. destruct Hfind as [_ Hm].
    unfold Demo.record_matches in Hm. rewrite Hu in Hm.
    apply andb_true_iff in Hm. destruct Hm as [_ Hm].
    destruct u; [discriminate Hm | reflexivity]. }
  subst r.
  rewrite (main_analyze_hit py chat_completions_create _process_response
             doc info (Demo.mem_store records) n (Datatypes.S n)
             [("urheber", PStr u)] (PStr u) Hinfo Hnames
             (mem_store_answers records full n rec (PStr u) Hfind Hu)
             eq_refl Htrue).
  split; reflexivity.
Qed.

(** * Validation *)



(** C10. On a document whose [domain] or [tld] is missing or empty, neither
    analyzer makes an external call, even with a store at hand: the log of
    calls is empty and the collaborators' state is untouched. *)
Theorem analyze_validation_makes_no_call {S : Type}
    (py : python)
    (chat_completions_create : chat_request -> handler S chat_completion)
    (_process_response : option string -> handler S pyval)
    (responses_create : responses_request -> handler S response)
    (doc info : pydict) (c : option (collection S)) (s : S) :
  has_domain_info doc info -> lacks_domain info ->
  let rm := MainPy.analyze py chat_completions_create _process_response
              (PDict doc) c s in
  let rn := NewPy.analyze py responses_create (PDict doc) c s in
  (log rm = [] /\ st rm = s /\ store_calls (log rm) = 0 /\ research_calls (log rm) = 0) /\
  (log rn = [] /\ st rn = s /\ store_calls (log rn) = 0 /\ research_calls (log rn) = 0).
Proof.
  intros Hinfo Hlack rm rn. subst rm rn.
  rewrite (main_analyze_lacks_domain _ _ _ _ _ _ _ Hinfo Hlack).
  rewrite (new_analyze_lacks_domain _ _ _ _ _ _ Hinfo Hlack).
  simpl. repeat split.
Qed.

Lemma analyze_validation_makes_no_call_witness :
  let doc := PDict [("url", PStr "https://example.org/");
                    ("domain_info", PDict [("domain", PStr EmptyString);
                                           ("tld", PStr "org")])] in
  let rm := MainPy.analyze Demo.python Demo.chat Demo.process_response
              doc (Some Demo.down_store) 7 in
  let rn := NewPy.analyze Demo.python (Demo.responses Demo.classification_text)
              doc (Some Demo.down_store) 7 in
  (log rm = [] /\ st rm = 7 /\ store_calls (log rm) = 0 /\ research_calls (log rm) = 0) /\
  (log rn = [] /\ st rn = 7 /\ store_calls (log rn) = 0 /\ research_calls (log rn) = 0).
Proof.
  apply (analyze_validation_makes_no_call Demo.python Demo.chat Demo.process_response
           (Demo.responses Demo.classification_text)
           [("url", PStr "https://example.org/");
            ("domain_info", PDict [("domain", PStr EmptyString); ("tld", PStr "org")])]
           [("domain", PStr EmptyString); ("tld", PStr "org")]
           (Some Demo.down_store) 7).
  - reflexivity.
  - left. reflexivity.
Defined.

(** * A store that fails *)

(** C5. With a store whose every query raises, the lookup of src/main.py
    catches the exception and returns [None], and [analyze] goes on to the
    research step, run from the state the failed query left: it returns the
    research step's result and raises nothing. The lookup returns, and never
    raises, on every store. [analyze] of src/new.py never queries the store
    and is the research step. *)
Theorem analyze_store_raises {S : Type}
    (py : python)
    (chat_completions_create : chat_request -> handler S chat_completion)
    (_process_response : option string -> handler S pyval)
    (responses_create : responses_request -> handler S response)
    (doc info : pydict) (coll : collection S) (s : S) :
  has_domain_info doc info -> names_domain info -> always_raises coll ->
  let full := MainPy.full_domain_of py (domain_of info) (tld_of info) in
  let s1 := snd (coll (MainPy.query full) MainPy.projection s) in
  let research :=
    MainPy._research_domain_with_web_search
      py chat_completions_create _process_response full (url_of doc) s1 in
  let r := MainPy.analyze py chat_completions_create _process_response
             (PDict doc) (Some coll) s in
  let r' := NewPy.analyze py responses_create (PDict doc) (Some coll) s in
  (forall (any : collection S) domain s0,
      exists v, res (MainPy._check_database_for_domain any domain s0) = Ret v) /\
  (forall domain s0, res (MainPy._check_database_for_domain coll domain s0) = Ret PNone) /\
  res r = res research /\
  st r = st research /\
  log r = EvFindOne (MainPy.query full) MainPy.projection :: log research /\
  (exists result, res r = Ret result /\
                  (has_method "web_search" result \/ has_method "error" result)) /\
  (exists result, res r' = Ret result /\
                  (has_method "responses_api_web_search" result \/
                   has_method "error" result)) /\
  store_calls (log r') = 0.
Proof.
  intros Hinfo Hnames Hraise full s1 research r r'.
  assert (Hnone : forall domain s0,
             MainPy._check_database_for_domain coll domain s0
             = mkRun (Ret PNone) (snd (coll (MainPy.query domain) MainPy.projection s0))
                     [EvFindOne (MainPy.query domain) MainPy.projection]).
  { intros domain s0.
    destruct (Hraise (MainPy.query domain) MainPy.projection s0) as [e He].
    now apply check_database_raise with (e := e). }
  assert (Hmiss : cache_miss (Some coll) full s s1
                    [EvFindOne (MainPy.query full) MainPy.projection]).
  { simpl. rewrite Hnone. simpl. repeat split. now exists PNone. }
  pose proof (main_analyze_after_miss py chat_completions_create _process_response
                doc info (Some coll) s s1 _ Hinfo Hnames Hmiss) as Hrun.
  fold full in Hrun. fold research in Hrun. fold r in Hrun.
  split; [| split; [| split; [| split; [| split; [| split; [| split]]]]]].
  - intros any domain s0.
    destruct (check_database_run any domain s0) as [v Hv].
    exists v. now rewrite Hv.
  - intros domain s0. now rewrite Hnone.
  - now rewrite Hrun.
  - now rewrite Hrun.
  - now rewrite Hrun.
  - rewrite Hrun; simpl. subst research.
    destruct (main_research_cases py chat_completions_create _process_response
                full (url_of doc) s1) as [[d Hd] | [e He]].
    + eexists. split; [exact Hd |]. left.
      apply (with_metadata_envelope "web_search" (8 # 10) full d).
    + eexists. split; [exact He |]. right. reflexivity.
  - subst r'.
    rewrite (new_analyze_names_domain py responses_create doc info (Some coll) s
               Hinfo Hnames).
    destruct (new_research_cases py responses_create
                (NewPy.full_domain_of py (domain_of info) (tld_of info)) (url_of doc) s)
      as [[d Hd] | [e He]].
    + eexists. split; [exact Hd |]. left.
      apply (with_metadata_envelope "responses_api_web_search" (9 # 10) _ d).
    + eexists. split; [exact He |]. right. reflexivity.
  - subst r'.
    rewrite (new_analyze_names_domain py responses_create doc info (Some coll) s
               Hinfo Hnames).
    now rewrite new_research_log.
Qed.

Lemma analyze_store_raises_witness :
  let r := MainPy.analyze Demo.python Demo.chat Demo.process_response
             Demo.document (Some Demo.down_store) 0 in
  res (MainPy._check_database_for_domain Demo.down_store "example.org" 0) = Ret PNone /\
  res r = res (MainPy._research_domain_with_web_search
                 Demo.python Demo.chat Demo.process_response
                 "example.org" (PStr "https://help.example.org/x") 1) /\
  exists result, res r = Ret result /\
                 (has_method "web_search" result \/ has_method "error" result).
Proof.
  destruct (analyze_store_raises Demo.python Demo.chat Demo.process_response
              (Demo.responses Demo.classification_text)
              [ ("url", PStr "https://help.example.org/x");
                ("domain_info", PDict [("domain", PStr "example"); ("tld", PStr "org")]) ]
              [("domain", PStr "example"); ("tld", PStr "org")]
              Demo.down_store 0)
    as (_ & Hnone & Hres & _ & _ & Hmethod & _).
  - reflexivity.
  - split; reflexivity.
  - intros q p s. eexists. reflexivity.
  - split; [apply Hnone | split; [exact Hres | exact Hmethod]].
Defined.

(** * Two calls in a row *)



(** * The invariant of the envelope *)

(** C2, as the code has it. On every result that [analyze] returns:
    confidence is 1.0 exactly when the method is [database]; it is the
    research constant (0.8 in src/main.py, 0.9 in src/new.py, both below 1.0)
    exactly when the method is the research label ([web_search],
    [responses_api_web_search]); it is 0 exactly when the method is [failure]
    or [error]; and a result with method [failure] or [error] has urheber
    [unbekannt]. A result is returned for every dictionary whose domain
    descriptor is absent or a dictionary. *)
Theorem analyze_confidence_invariant {S : Type}
    (py : python)
    (chat_completions_create : chat_request -> handler S chat_completion)
    (_process_response : option string -> handler S pyval)
    (responses_create : responses_request -> handler S response)
    (document : pyval) (c : option (collection S)) (s : S) :
  (forall r,
      res (MainPy.analyze py chat_completions_create _process_response document c s)
      = Ret r ->
      envelope_invariant "web_search" (8 # 10) r) /\
  (forall r,
      res (NewPy.analyze py responses_create document c s) = Ret r ->
      envelope_invariant "responses_api_web_search" (9 # 10) r) /\
  (forall doc info,
      document = PDict doc -> has_domain_info doc info ->
      (exists r, res (MainPy.analyze py chat_completions_create _process_response
                        document c s) = Ret r) /\
      (exists r, res (NewPy.analyze py responses_create document c s) = Ret r)) /\
  (8 # 10 < 1)%Q /\ (9 # 10 < 1)%Q.
Proof.
  split; [| split; [| split; [| split; reflexivity]]].
  - intros r Hr.
    destruct (main_analyze_returns_inv py chat_completions_create _process_response
                document c s r Hr) as (doc & info & -> & Hinfo).
    destruct (main_analyze_cases py chat_completions_create _process_response
                doc info c s Hinfo)
      as [H | [(v & _ & _ & H) | [(d & H) | (e & H)]]];
      rewrite H in Hr; injection Hr as <-.
    + apply invariant_failure_main.
    + apply invariant_database.
    + apply invariant_research; discriminate.
    + apply invariant_error_main.
  - intros r Hr.
    destruct (new_analyze_returns_inv py responses_create document c s r Hr)
      as (doc & info & -> & Hinfo).
    destruct (new_analyze_cases py responses_create doc info c s Hinfo)
      as [H | [(d & H) | (e & H)]];
      rewrite H in Hr; injection Hr as <-.
    + apply invariant_failure_new.
    + apply invariant_research; discriminate.
    + apply invariant_error_new.
  - intros doc info -> Hinfo. split.
    + destruct (main_analyze_cases py chat_completions_create _process_response
                  doc info c s Hinfo)
        as [H | [(v & _ & _ & H) | [(d & H) | (e & H)]]]; eexists; exact H.
    + destruct (new_analyze_cases py responses_create doc info c s Hinfo)
        as [H | [(d & H) | (e & H)]]; eexists; exact H.
Qed.

Lemma analyze_confidence_invariant_witness :
  (exists r, res (MainPy.analyze Demo.python Demo.chat Demo.process_response
                    Demo.document (Some (Demo.mem_store Demo.known)) 0) = Ret r /\
             envelope_invariant "web_search" (8 # 10) r) /\
  (exists r, res (NewPy.analyze Demo.python (Demo.responses Demo.classification_text)
                    Demo.document (Some (Demo.mem_store Demo.known)) 0) = Ret r /\
             envelope_invariant "responses_api_web_search" (9 # 10) r).
Proof.
  destruct (analyze_confidence_invariant Demo.python Demo.chat Demo.process_response
              (Demo.responses Demo.classification_text)
              Demo.document (Some (Demo.mem_store Demo.known)) 0)
    as (Hmain & Hnew & Hret & _).
  destruct (Hret [ ("url", PStr "https://help.example.org/x");
                   ("domain_info",
                    PDict [("domain", PStr "example"); ("tld", PStr "org")]) ]
                 [("domain", PStr "example"); ("tld", PStr "org")]
                 eq_refl eq_refl)
    as [[rm Hrm] [rn Hrn]].
  split.
  - exists rm. split; [exact Hrm | exact (Hmain rm Hrm)].
  - exists rn. split; [exact Hrn | exact (Hnew rn Hrn)].
Defined.

(** C2, as the specification words it, fails. A stored [urheber] is
    returned as it is: with the record [unbekannt] stored for the domain the
    result has method [database] and urheber [unbekannt], against the
    invariant whatever the research label and constant are. And a successful
    research carries the label [web_search], so that with the label
    [research] the constant 0.8 comes without its method. *)
Lemma stored_unbekannt_breaks_invariant :
  let store := Demo.mem_store [[("domain", PStr "example.org");
                                ("urheber", PStr "unbekannt")]] in
  (exists r, res (MainPy.analyze Demo.python Demo.chat Demo.process_response
                    Demo.document (Some store) 0) = Ret r /\
             has_method "database" r /\
             field "urheber" r = Some (PStr "unbekannt") /\
             forall label k, ~ spec_invariant label k r) /\
  (exists r, res (MainPy.analyze Demo.python Demo.chat Demo.process_response
                    Demo.document None 0) = Ret r /\
             has_method "web_search" r /\
             field "confidence" r = Some (PFloat (8 # 10)) /\
             ~ spec_invariant "research" (8 # 10) r).
Proof.
  split.
  - evaluated.
    split; [reflexivity |]. split; [reflexivity |].
    intros label k (_ & _ & _ & Hu & _).
    destruct (Hu eq_refl) as [H | H]; discriminate H.
  - evaluated.
    split; [reflexivity |]. split; [reflexivity |].
    intros (_ & Hk & _).
    destruct Hk as [Hk _]. specialize (Hk eq_refl). discriminate Hk.
Qed.

(** * The research tier *)

(** C3, as the code has it. On a document that names a domain, after a miss
    of the cache (or without a store), when the research step goes through
    and the provider's object [d] names a category: the result has that
    category as urheber, the research label as method ([web_search] in
    src/main.py, [responses_api_web_search] in src/new.py), the research
    constant as confidence (0.8, 0.9), the full domain, and every other field
    as [d] has it: a justification and sources are there exactly when the
    provider sent them. *)
Theorem analyze_research_success {S : Type}
    (py : python)
    (chat_completions_create : chat_request -> handler S chat_completion)
    (_process_response : option string -> handler S pyval)
    (responses_create : responses_request -> handler S response)
    (doc info : pydict) (c : option (collection S)) (s : S) :
  has_domain_info doc info -> names_domain info ->
  let full := MainPy.full_domain_of py (domain_of info) (tld_of info) in
  let full' := NewPy.full_domain_of py (domain_of info) (tld_of info) in
  let url := url_of doc in
  (forall s1 l content s2 l2 d s3 cat,
      cache_miss c full s s1 l ->
      MainPy.classification_content py chat_completions_create full url s1
        = mkRun (Ret content) s2 l2 ->
      _process_response content s2 = (Ret (PDict d), s3) ->
      dict_lookup "urheber" d = Some (PStr cat) -> is_category cat = true ->
      exists r,
        res (MainPy.analyze py chat_completions_create _process_response
               (PDict doc) c s) = Ret r /\
        field "urheber" r = Some (PStr cat) /\
        research_envelope "web_search" (8 # 10) full d r) /\
  (forall text s1 d cat,
      responses_create (NewPy.request py full' url) s = (Ret (mkResponse text), s1) ->
      json_loads py text = Ret (PDict d) ->
      dict_lookup "urheber" d = Some (PStr cat) -> is_category cat = true ->
      exists r,
        res (NewPy.analyze py responses_create (PDict doc) c s) = Ret r /\
        field "urheber" r = Some (PStr cat) /\
        research_envelope "responses_api_web_search" (9 # 10) full' d r).
Proof.
  intros Hinfo Hnames full full' url. split.
  - intros s1 l content s2 l2 d s3 cat Hmiss Hcontent Hproc Hcat _.
    subst full url.
    set (full := MainPy.full_domain_of py (domain_of info) (tld_of info)) in *.
    exists (PDict (with_metadata "web_search" (8 # 10) full d)).
    pose proof (with_metadata_envelope "web_search" (8 # 10) full d) as Henv.
    split; [| split; [| exact Henv]].
    + rewrite (main_analyze_after_miss py chat_completions_create _process_response
                 doc info c s s1 l Hinfo Hnames Hmiss); simpl.
      fold full.
      unfold MainPy._research_domain_with_web_search.
      pose proof (research_attempt_returns py chat_completions_create
                    _process_response full (url_of doc) s1 s2 s3 l2 content d
                    Hcontent Hproc)
        as Hrun.
      rewrite (try_except_returns _ _ _ (PDict (with_metadata "web_search" (8 # 10) full d)))
        by now rewrite Hrun.
      now rewrite Hrun.
    + destruct Henv as (_ & _ & _ & Hother).
      rewrite Hother by discriminate. exact Hcat.
  - intros text s1 d cat Hresp Hjson Hcat _.
    subst full' url.
    set (full' := NewPy.full_domain_of py (domain_of info) (tld_of info)) in *.
    exists (PDict (with_metadata "responses_api_web_search" (9 # 10) full' d)).
    pose proof (with_metadata_envelope "responses_api_web_search" (9 # 10) full' d)
      as Henv.
    split; [| split; [| exact Henv]].
    + rewrite (new_analyze_names_domain py responses_create doc info c s Hinfo Hnames).
      apply new_research_returns.
      fold full'.
      rewrite (new_attempt_decoded py responses_create full' (url_of doc) s s1 text Hresp).
      simpl. now rewrite Hjson.
    + destruct Henv as (_ & _ & _ & Hother).
      rewrite Hother by discriminate. exact Hcat.
Qed.

Lemma analyze_research_success_witness :
  (exists r,
      res (MainPy.analyze Demo.python Demo.chat Demo.process_response
             Demo.document None 0) = Ret r /\
      field "urheber" r = Some (PStr "Unternehmen") /\
      has_method "web_search" r /\
      field "confidence" r = Some (PFloat (8 # 10))) /\
  (exists r,
      res (NewPy.analyze Demo.python (Demo.responses Demo.classification_text)
             Demo.document None 0) = Ret r /\
      field "urheber" r = Some (PStr "Unternehmen") /\
      has_method "responses_api_web_search" r /\
      field "confidence" r = Some (PFloat (9 # 10))).
Proof.
  destruct (analyze_research_success Demo.python Demo.chat Demo.process_response
              (Demo.responses Demo.classification_text)
              [ ("url", PStr "https://help.example.org/x");
                ("domain_info", PDict [("domain", PStr "example"); ("tld", PStr "org")]) ]
              [("domain", PStr "example"); ("tld", PStr "org")]
              None 0)
    as [Hmain Hnew].
  - reflexivity.
  - split; reflexivity.
  - split.
    + destruct (Hmain 0 [] (Some Demo.classification_text) 3
                  (log (MainPy.classification_content Demo.python Demo.chat
                          "example.org" (PStr "https://help.example.org/x") 0))
                  [ ("urheber", PStr "Unternehmen");
                    ("begründung", PStr "Impressum nennt die Example GmbH");
                    ("quellen", PList [PStr "https://example.org/impressum"]) ]
                  3 "Unternehmen")
        as (r & Hr & Hu & Hm & Hc & _).
      * split; reflexivity.
      * vm_compute. reflexivity.
      * vm_compute. reflexivity.
      * reflexivity.
      * reflexivity.
      * exists r. repeat split; assumption.
    + destruct (Hnew Demo.classification_text 1
                  [ ("urheber", PStr "Unternehmen");
                    ("begründung", PStr "Impressum nennt die Example GmbH");
                    ("quellen", PList [PStr "https://example.org/impressum"]) ]
                  "Unternehmen")
        as (r & Hr & Hu & Hm & Hc & _).
      * reflexivity.
      * vm_compute. reflexivity.
      * reflexivity.
      * reflexivity.
      * exists r. repeat split; assumption.
Defined.

(** C3, as the specification words it, fails. A provider that answers with
    the category alone gets it back with the three fields the analyzer sets:
    no justification and no sources, under any key, whatever the research
    label and constant are; and the label is [responses_api_web_search]. *)
Lemma research_without_justification :
  let text := "{" ++ quoted "urheber" ++ ": " ++ quoted "Unternehmen" ++ "}" in
  exists r,
    res (NewPy.analyze Demo.python (Demo.responses text) Demo.document None 0) = Ret r /\
    field "urheber" r = Some (PStr "Unternehmen") /\
    has_method "responses_api_web_search" r /\
    ~ justified r /\
    forall label k, ~ spec_research_envelope label k "example.org" "Unternehmen" r.
Proof.
  intros text. subst text. evaluated.
  split; [reflexivity |]. split; [reflexivity |].
  assert (Hj : ~ justified
                 (PDict [ ("urheber", PStr "Unternehmen");
                          ("method", PStr "responses_api_web_search");
                          ("confidence", PFloat (9 # 10));
                          ("domain", PStr "example.org") ])).
  { intros [[H | H] _]; apply H; reflexivity. }
  split; [exact Hj |].
  intros label k (_ & _ & _ & _ & H). exact (Hj H).
Qed.

(** C6, as the code has it. On a document that names a domain, when the
    research step raises [e] (the client raises, the answer cannot be
    decoded, or anything else goes wrong inside the [try]), the result has
    method [error], urheber [unbekannt], confidence 0, the full domain, and
    [str(e)] as its [error] field, which is empty when the exception has no
    message. *)
Theorem analyze_research_error {S : Type}
    (py : python)
    (chat_completions_create : chat_request -> handler S chat_completion)
    (_process_response : option string -> handler S pyval)
    (responses_create : responses_request -> handler S response)
    (doc info : pydict) (c : option (collection S)) (s : S) :
  has_domain_info doc info -> names_domain info ->
  let full := MainPy.full_domain_of py (domain_of info) (tld_of info) in
  let full' := NewPy.full_domain_of py (domain_of info) (tld_of info) in
  let url := url_of doc in
  (forall s1 l e,
      cache_miss c full s s1 l ->
      res (MainPy.research_attempt py chat_completions_create _process_response
             full url s1) = Raise e ->
      exists r,
        res (MainPy.analyze py chat_completions_create _process_response
               (PDict doc) c s) = Ret r /\
        error_envelope full e r) /\
  (forall e,
      res (NewPy.research_attempt py responses_create full' url s) = Raise e ->
      exists r,
        res (NewPy.analyze py responses_create (PDict doc) c s) = Ret r /\
        error_envelope full' e r) /\
  (forall s1 e,
      fst (chat_completions_create (MainPy.search_request py full url) s1) = Raise e ->
      res (MainPy.research_attempt py chat_completions_create _process_response
             full url s1) = Raise e) /\
  (forall e,
      fst (responses_create (NewPy.request py full' url) s) = Raise e ->
      res (NewPy.research_attempt py responses_create full' url s) = Raise e) /\
  (forall text s1 e,
      responses_create (NewPy.request py full' url) s = (Ret (mkResponse text), s1) ->
      json_loads py text = Raise e ->
      res (NewPy.research_attempt py responses_create full' url s) = Raise e).
Proof.
  intros Hinfo Hnames full full' url.
  split; [| split; [| split; [| split]]].
  - intros s1 l e Hmiss Hraise.
    exists (MainPy.error_result e full).
    split; [| apply main_error_envelope].
    rewrite (main_analyze_after_miss py chat_completions_create _process_response
               doc info c s s1 l Hinfo Hnames Hmiss); simpl.
    now apply main_research_raises.
  - intros e Hraise.
    exists (NewPy.error_result e full').
    split; [| apply new_error_envelope].
    rewrite (new_analyze_names_domain py responses_create doc info c s Hinfo Hnames).
    now apply new_research_raises.
  - intros s1 e Hraise. now apply research_attempt_client_raises.
  - intros e Hraise. now apply new_attempt_client_raises.
  - intros text s1 e Hresp Hjson.
    rewrite (new_attempt_decoded py responses_create full' url s s1 text Hresp).
    simpl. now rewrite Hjson.
Qed.

Lemma analyze_research_error_witness :
  (exists r,
      res (MainPy.analyze Demo.python
             (Demo.chat_down (mkExn "APIConnectionError" "Connection error."))
             Demo.process_response Demo.document None 0) = Ret r /\
      error_envelope "example.org" (mkExn "APIConnectionError" "Connection error.") r) /\
  (exists r,
      res (NewPy.analyze Demo.python (Demo.responses "Unternehmen")
             Demo.document None 0) = Ret r /\
      error_envelope "example.org" (Json.decode_error "Expecting value") r).
Proof.
  destruct (analyze_research_error Demo.python
              (Demo.chat_down (mkExn "APIConnectionError" "Connection error."))
              Demo.process_response (Demo.responses "Unternehmen")
              [ ("url", PStr "https://help.example.org/x");
                ("domain_info", PDict [("domain", PStr "example"); ("tld", PStr "org")]) ]
              [("domain", PStr "example"); ("tld", PStr "org")]
              None 0)
    as (Hmain & Hnew & Hchat & _ & Hjson).
  - reflexivity.
  - split; reflexivity.
  - split.
    + apply (Hmain 0 []); [split; reflexivity |].
      apply Hchat. reflexivity.
    + apply Hnew. apply (Hjson "Unternehmen" 1); reflexivity.
Defined.

(** C6, as the specification words it, fails. The [error] field is
    [str(e)], and an exception raised without a message has the empty
    string for it. *)
Lemma research_error_without_message :
  (exists r,
      res (NewPy.analyze Demo.python
             (Demo.responses_down (mkExn "TimeoutError" EmptyString))
             Demo.document None 0) = Ret r /\
      has_method "error" r /\
      field "error" r = Some (PStr EmptyString) /\
      ~ spec_error_envelope "example.org" r) /\
  (exists r,
      res (MainPy.analyze Demo.python
             (Demo.chat_down (mkExn "TimeoutError" EmptyString))
             Demo.process_response Demo.document None 0) = Ret r /\
      has_method "error" r /\
      field "error" r = Some (PStr EmptyString) /\
      ~ spec_error_envelope "example.org" r).
Proof.
  split; evaluated;
    (split; [reflexivity |]; split; [reflexivity |]);
    intros (_ & _ & _ & _ & msg & Hmsg & Hne);
    injection Hmsg as Hmsg; now subst msg.
Qed.

(** * Totality *)

(** C7, as the code has it. On a document that is a dictionary whose domain
    descriptor is absent or a dictionary, whatever the collaborators do,
    both analyzers return, and return a dictionary with a method and a
    confidence; an urheber is there on every result but a successful
    research, which has the fields of the provider's object. *)
Theorem analyze_returns_envelope {S : Type}
    (py : python)
    (chat_completions_create : chat_request -> handler S chat_completion)
    (_process_response : option string -> handler S pyval)
    (responses_create : responses_request -> handler S response)
    (doc info : pydict) (c : option (collection S)) (s : S) :
  has_domain_info doc info ->
  well_formed "web_search"
    (res (MainPy.analyze py chat_completions_create _process_response (PDict doc) c s)) /\
  well_formed "responses_api_web_search"
    (res (NewPy.analyze py responses_create (PDict doc) c s)).
Proof.
  intros Hinfo. split.
  - destruct (main_analyze_cases py chat_completions_create _process_response
                doc info c s Hinfo)
      as [H | [(v & _ & _ & H) | [(d & H) | (e & H)]]]; rewrite H.
    + eexists _, "failure". repeat split; simpl; auto; try discriminate.
      right. split; [auto | discriminate].
    + eexists _, "database". repeat split; simpl; auto; try discriminate.
      right. split; [auto | discriminate].
    + destruct (with_metadata_envelope "web_search" (8 # 10)
                  (MainPy.full_domain_of py (domain_of info) (tld_of info)) d)
        as (Hm & Hc & _).
      eexists _, "web_search". repeat split; [exact Hm | | now left].
      unfold field in Hc. rewrite Hc. discriminate.
    + eexists _, "error". repeat split; simpl; auto; try discriminate.
      right. split; [auto | discriminate].
  - destruct (new_analyze_cases py responses_create doc info c s Hinfo)
      as [H | [(d & H) | (e & H)]]; rewrite H.
    + eexists _, "failure". repeat split; simpl; auto; try discriminate.
      right. split; [auto | discriminate].
    + destruct (with_metadata_envelope "responses_api_web_search" (9 # 10)
                  (NewPy.full_domain_of py (domain_of info) (tld_of info)) d)
        as (Hm & Hc & _).
      eexists _, "responses_api_web_search". repeat split; [exact Hm | | now left].
      unfold field in Hc. rewrite Hc. discriminate.
    + eexists _, "error". repeat split; simpl; auto; try discriminate.
      right. split; [auto | discriminate].
Qed.

Lemma analyze_returns_envelope_witness :
  well_formed "web_search"
    (res (MainPy.analyze Demo.python
            (Demo.chat_down (mkExn "APIConnectionError" "Connection error."))
            Demo.process_response Demo.document (Some Demo.down_store) 0)) /\
  well_formed "responses_api_web_search"
    (res (NewPy.analyze Demo.python
            (Demo.responses_down (mkExn "APIConnectionError" "Connection error."))
            Demo.document (Some Demo.down_store) 0)).
Proof.
  apply (analyze_returns_envelope Demo.python
           (Demo.chat_down (mkExn "APIConnectionError" "Connection error."))
           Demo.process_response
           (Demo.responses_down (mkExn "APIConnectionError" "Connection error."))
           [ ("url", PStr "https://help.example.org/x");
             ("domain_info", PDict [("domain", PStr "example"); ("tld", PStr "org")]) ]
           [("domain", PStr "example"); ("tld", PStr "org")]
           (Some Demo.down_store) 0).
  reflexivity.
Defined.

(** C7, as the specification words it, fails. A document whose
    [domain_info] is [None] makes [domain_info.get] raise before any [try],
    in both analyzers; and an object of the provider without an [urheber]
    comes back without one. *)
Lemma analyze_raises_or_omits_urheber :
  let doc := PDict [("url", PStr "https://example.org/"); ("domain_info", PNone)] in
  let text := "{" ++ quoted "kategorie" ++ ": " ++ quoted "Unternehmen" ++ "}" in
  let rm := res (MainPy.analyze Demo.python Demo.chat Demo.process_response
                   doc (Some (Demo.mem_store Demo.known)) 0) in
  let rn := res (NewPy.analyze Demo.python (Demo.responses Demo.classification_text)
                   doc None 0) in
  let rt := res (NewPy.analyze Demo.python (Demo.responses text) Demo.document None 0) in
  (rm = Raise (no_attribute PNone "get") /\ ~ spec_well_formed rm) /\
  (rn = Raise (no_attribute PNone "get") /\ ~ spec_well_formed rn) /\
  (exists r, rt = Ret r /\ has_method "responses_api_web_search" r /\
             field "urheber" r = None /\ ~ spec_well_formed rt).
Proof.
  intros doc text rm rn rt.
  split; [| split].
  - split; [reflexivity |]. intros (d & H & _). discriminate H.
  - split; [reflexivity |]. intros (d & H & _). discriminate H.
  - subst rt text. evaluated.
    split; [reflexivity |]. split; [reflexivity |].
    intros (d & H & Hu & _). injection H as H. subst d.
    apply Hu. reflexivity.
Qed.

(** * The closed set of categories *)




(** * Further properties of the lookup *)

Section Lookup.
Context {S : Type}.
Variable py : python.
Variable chat_completions_create : chat_request -> handler S chat_completion.
Variable _process_response : option string -> handler S pyval.

(** The run of the lookup, for every answer of the store. *)
Lemma check_database_looked_up (coll : collection S) (domain : string) (s : S) :
  MainPy._check_database_for_domain coll domain s
  = mkRun (Ret (looked_up (fst (coll (MainPy.query domain) MainPy.projection s))))
          (snd (coll (MainPy.query domain) MainPy.projection s))
          [EvFindOne (MainPy.query domain) MainPy.projection].
Proof.
  unfold MainPy._check_database_for_domain, try_except, bind, call, lift, ret.
  cbn [res st log].
  destruct (fst (coll (MainPy.query domain) MainPy.projection s)) as [result | e];
    [| reflexivity].
  destruct result as [| b | z | q | str | l | rec]; cbn [truthy looked_up].
  - reflexivity.
  - destruct b; reflexivity.
  - destruct (Z.eqb z 0); reflexivity.
  - destruct (Qeq_bool q 0); reflexivity.
  - destruct (String.eqb str EmptyString); cbn; [reflexivity |].
    destruct (is_substring "urheber" str); reflexivity.
  - destruct l as [| x l]; [reflexivity |].
    cbn [negb py_contains res st log].
    destruct (existsb _ (x :: l)); reflexivity.
  - destruct rec as [| kv rec]; [reflexivity |].
    unfold py_contains, py_getitem, dict_get. cbn [res st log].
    destruct (dict_lookup "urheber" (kv :: rec)) as [v |]; reflexivity.
Qed.

(** [analyze] of src/main.py with a store, for every answer of the store. *)
Lemma main_analyze_with_store
    (doc info : pydict) (coll : collection S) (s : S) :
  has_domain_info doc info -> names_domain info ->
  let full := MainPy.full_domain_of py (domain_of info) (tld_of info) in
  let answer := coll (MainPy.query full) MainPy.projection s in
  let research :=
    MainPy._research_domain_with_web_search
      py chat_completions_create _process_response full (url_of doc) (snd answer) in
  MainPy.analyze py chat_completions_create _process_response (PDict doc) (Some coll) s
  = if truthy (looked_up (fst answer))
    then mkRun (Ret (MainPy.database_result (looked_up (fst answer)) full))
               (snd answer) [EvFindOne (MainPy.query full) MainPy.projection]
    else mkRun (res research) (st research)
               (EvFindOne (MainPy.query full) MainPy.projection :: log research).
Proof.
  intros Hinfo Hnames full answer research.
  rewrite (main_analyze_names_domain py chat_completions_create _process_response
             doc info (Some coll) s Hinfo Hnames).
  cbn zeta. fold full.
  rewrite (bind_returns _ _ _ (looked_up (fst answer)))
    by (rewrite check_database_looked_up; reflexivity).
  rewrite check_database_looked_up. cbn [res st log]. fold answer.
  destruct (truthy (looked_up (fst answer))); reflexivity.
Qed.

End Lookup.

(** X1. The lookup of src/main.py queries the store once and returns a
    value other than [None] only when the store answered with a dictionary
    that has it under [urheber]; for that answer it returns the value, and
    for every other answer ([None], a record without the key, a string, a
    list, a number, an exception) it returns [None]. *)
Theorem check_database_returns_stored_value {S : Type}
    (coll : collection S) (domain : string) (s : S) :
  let answer := fst (coll (MainPy.query domain) MainPy.projection s) in
  let r := MainPy._check_database_for_domain coll domain s in
  log r = [EvFindOne (MainPy.query domain) MainPy.projection] /\
  st r = snd (coll (MainPy.query domain) MainPy.projection s) /\
  (forall rec v, answer = Ret (PDict rec) -> dict_lookup "urheber" rec = Some v ->
                 res r = Ret v) /\
  (forall v, res r = Ret v -> v <> PNone ->
             exists rec, answer = Ret (PDict rec) /\ dict_lookup "urheber" rec = Some v) /\
  ((forall rec, answer <> Ret (PDict rec)) -> res r = Ret PNone) /\
  (forall rec, answer = Ret (PDict rec) -> dict_lookup "urheber" rec = None ->
               res r = Ret PNone).
Proof.
  intros answer r. subst r.
  rewrite check_database_looked_up. cbn [res st log]. fold answer.
  split; [reflexivity |]. split; [reflexivity |].
  split; [| split; [| split]].
  - intros rec v Ha Hv. rewrite Ha. unfold looked_up, dict_get. now rewrite Hv.
  - intros v Hr Hne. injection Hr as Hr.
    destruct answer as [[| | | | | | rec] | e]; cbn in Hr;
      try (now subst v).
    exists rec. split; [reflexivity |].
    unfold dict_get in Hr.
    destruct (dict_lookup "urheber" rec) as [x |]; [now subst x | now subst v].
  - intros Hno.
    destruct answer as [[| | | | | | rec] | e]; try reflexivity.
    now destruct (Hno rec).
  - intros rec Ha Hv. rewrite Ha. unfold looked_up, dict_get. now rewrite Hv.
Qed.

Lemma check_database_returns_stored_value_witness :
  let r := MainPy._check_database_for_domain (Demo.mem_store Demo.known) "example.org" 0 in
  log r = [EvFindOne (MainPy.query "example.org") MainPy.projection] /\
  res r = Ret (PStr "Unternehmen") /\
  res (MainPy._check_database_for_domain (Demo.mem_store Demo.known) "example.com" 0)
  = Ret PNone.
Proof.
  destruct (check_database_returns_stored_value
              (Demo.mem_store Demo.known) "example.org" 0)
    as (Hlog & _ & Hhit & _).
  destruct (check_database_returns_stored_value
              (Demo.mem_store Demo.known) "example.com" 0)
    as (_ & _ & _ & _ & Hmiss & _).
  split; [exact Hlog |]. split.
  - apply (Hhit [("urheber", PStr "Unternehmen")]); reflexivity.
  - apply Hmiss. intros rec H. discriminate H.
Defined.

(** X2. With a store, [analyze] of src/main.py is decided by the truth
    value of the looked-up [urheber]: a value that counts as true is returned
    as a [database] result after the one query; a stored value that counts as
    false ([None], 0, [False], an empty list), like a miss, sends the call on
    to the research step, run from the state the query left. *)
Theorem analyze_store_decides {S : Type}
    (py : python)
    (chat_completions_create : chat_request -> handler S chat_completion)
    (_process_response : option string -> handler S pyval)
    (doc info : pydict) (coll : collection S) (s : S) :
  has_domain_info doc info -> names_domain info ->
  let full := MainPy.full_domain_of py (domain_of info) (tld_of info) in
  let answer := coll (MainPy.query full) MainPy.projection s in
  let v := looked_up (fst answer) in
  let research :=
    MainPy._research_domain_with_web_search
      py chat_completions_create _process_response full (url_of doc) (snd answer) in
  let r := MainPy.analyze py chat_completions_create _process_response
             (PDict doc) (Some coll) s in
  (truthy v = true ->
   r = mkRun (Ret (MainPy.database_result v full)) (snd answer)
             [EvFindOne (MainPy.query full) MainPy.projection]) /\
  (truthy v = false ->
   res r = res research /\ st r = st research /\
   log r = EvFindOne (MainPy.query full) MainPy.projection :: log research /\
   forall result, res r = Ret result -> ~ has_method "database" result).
Proof.
  intros Hinfo Hnames full answer v research r. subst r.
  rewrite (main_analyze_with_store py chat_completions_create _process_response
             doc info coll s Hinfo Hnames).
  cbn zeta. fold full. fold answer. fold v. fold research.
  split; intros Hv; rewrite Hv; [reflexivity |].
  cbn [res st log]. repeat split.
  intros result Hres. subst research.
  destruct (main_research_cases py chat_completions_create _process_response
              full (url_of doc) (snd answer)) as [[d Hd] | [e He]].
  - rewrite Hd in Hres. injection Hres as <-.
    destruct (with_metadata_envelope "web_search" (8 # 10) full d) as (Hm & _).
    unfold has_method in *. rewrite Hm. discriminate.
  - rewrite He in Hres. injection Hres as <-. discriminate.
Qed.

Lemma analyze_store_decides_witness :
  let store := Demo.mem_store [[("domain", PStr "example.org"); ("urheber", PNone)]] in
  let r := MainPy.analyze Demo.python Demo.chat Demo.process_response
             Demo.document (Some store) 0 in
  fst (store (MainPy.query "example.org") MainPy.projection 0)
  = Ret (PDict [("urheber", PNone)]) /\
  res r = res (MainPy._research_domain_with_web_search
                 Demo.python Demo.chat Demo.process_response
                 "example.org" (PStr "https://help.example.org/x") 1) /\
  forall result, res r = Ret result -> ~ has_method "database" result.
Proof.
  intros store r.
  destruct (analyze_store_decides Demo.python Demo.chat Demo.process_response
              [ ("url", PStr "https://help.example.org/x");
                ("domain_info", PDict [("domain", PStr "example"); ("tld", PStr "org")]) ]
              [("domain", PStr "example"); ("tld", PStr "org")]
              store 0)
    as [_ Hfalse].
  - reflexivity.
  - split; reflexivity.
  - split; [reflexivity |].
    destruct (Hfalse eq_refl) as (Hres & _ & _ & Hno).
    split; [exact Hres | exact Hno].
Defined.

(** * Documents that cannot be read *)

Section Malformed.
Context {S : Type}.
Variable py : python.
Variable chat_completions_create : chat_request -> handler S chat_completion.
Variable _process_response : option string -> handler S pyval.
Variable responses_create : responses_request -> handler S response.

Lemma malformed_none (doc : pydict) :
  malformed (PDict doc) = None -> exists info, has_domain_info doc info.
Proof.
  unfold malformed, has_domain_info.
  destruct (dict_get "domain_info" (PDict []) doc) as [| | | | | | info];
    try discriminate.
  intros _. now exists info.
Qed.

Lemma main_analyze_malformed (document v : pyval) (c : option (collection S)) (s : S) :
  malformed document = Some v ->
  MainPy.analyze py chat_completions_create _process_response document c s
  = mkRun (Raise (no_attribute v "get")) s [].
Proof.
  destruct document as [| b | z | q | str | l | doc];
    try (intros H; injection H as <-; reflexivity).
  unfold malformed.
  destruct (dict_get "domain_info" (PDict []) doc) as [| b | z | q | str | l | info] eqn:E;
    intros H; try discriminate H; injection H as <-;
    unfold MainPy.analyze, bind, lift; cbn [py_get res st log]; rewrite E; reflexivity.
Qed.

Lemma new_analyze_malformed (document v : pyval) (c : option (collection S)) (s : S) :
  malformed document = Some v ->
  NewPy.analyze py responses_create document c s
  = mkRun (Raise (no_attribute v "get")) s [].
Proof.
  destruct document as [| b | z | q | str | l | doc];
    try (intros H; injection H as <-; reflexivity).
  unfold malformed.
  destruct (dict_get "domain_info" (PDict []) doc) as [| b | z | q | str | l | info] eqn:E;
    intros H; try discriminate H; injection H as <-;
    unfold NewPy.analyze, bind, lift; cbn [py_get res st log]; rewrite E; reflexivity.
Qed.

End Malformed.

(** X3. Both analyzers raise exactly on a document that is no dictionary
    or whose [domain_info] is no dictionary: the exception is the
    [AttributeError] of the failed [.get], raised before any external call
    and with the collaborators' state untouched; every other document gets a
    result. *)
Theorem analyze_raises_exactly_on_malformed {S : Type}
    (py : python)
    (chat_completions_create : chat_request -> handler S chat_completion)
    (_process_response : option string -> handler S pyval)
    (responses_create : responses_request -> handler S response)
    (document : pyval) (c : option (collection S)) (s : S) :
  let rm := MainPy.analyze py chat_completions_create _process_response document c s in
  let rn := NewPy.analyze py responses_create document c s in
  match malformed document with
  | Some v =>
      rm = mkRun (Raise (no_attribute v "get")) s [] /\
      rn = mkRun (Raise (no_attribute v "get")) s []
  | None => (exists r, res rm = Ret r) /\ (exists r, res rn = Ret r)
  end.
Proof.
  intros rm rn. subst rm rn.
  destruct (malformed document) as [v |] eqn:E.
  - split;
      [ now apply main_analyze_malformed | now apply new_analyze_malformed ].
  - destruct document as [| b | z | q | str | l | doc]; try discriminate E.
    destruct (malformed_none doc E) as [info Hinfo].
    split.
    + destruct (main_analyze_cases py chat_completions_create _process_response
                  doc info c s Hinfo)
        as [H | [(v & _ & _ & H) | [(d & H) | (e & H)]]]; eexists; exact H.
    + destruct (new_analyze_cases py responses_create doc info c s Hinfo)
        as [H | [(d & H) | (e & H)]]; eexists; exact H.
Qed.

(** * The calls a run makes *)

Section Calls.
Context {S : Type}.

Lemma at_most_ret {A} (P : event -> bool) (n : nat) (a : A) :
  at_most (S := S) P n (ret a).
Proof. intros s. split; [reflexivity | apply Nat.le_0_l]. Qed.

Lemma at_most_lift {A} (P : event -> bool) (n : nat) (o : outcome A) :
  at_most (S := S) P n (lift o).
Proof. intros s. split; [reflexivity | apply Nat.le_0_l]. Qed.

Lemma at_most_internal {A} (P : event -> bool) (n : nat) (h : handler S A) :
  at_most P n (internal h).
Proof. intros s. split; [reflexivity | apply Nat.le_0_l]. Qed.

Lemma at_most_call {A} (P : event -> bool) (n : nat) (ev : event) (h : handler S A) :
  P ev = true -> 1 <= n -> at_most P n (call ev h).
Proof.
  intros HP Hn s. unfold call; cbn [log forallb length].
  rewrite HP. split; [reflexivity | exact Hn].
Qed.

Lemma at_most_bind {A B} (P : event -> bool) (n k : nat)
    (m : M S A) (f : A -> M S B) :
  at_most P n m -> (forall a, at_most P k (f a)) -> at_most P (n + k) (bind m f).
Proof.
  intros Hm Hf s. unfold bind.
  destruct (Hm s) as [HPm Hnm].
  destruct (res (m s)) as [a | e]; cbn [log].
  - destruct (Hf a (st (m s))) as [HPf Hkf].
    rewrite forallb_app, length_app, HPm, HPf.
    split; [reflexivity | now apply Nat.add_le_mono].
  - split; [exact HPm |].
    apply Nat.le_trans with n; [exact Hnm | apply Nat.le_add_r].
Qed.

Lemma at_most_try_except {A} (P : event -> bool) (n k : nat)
    (m : M S A) (h : exn -> M S A) :
  at_most P n m -> (forall e, at_most P k (h e)) -> at_most P (n + k) (try_except m h).
Proof.
  intros Hm Hh s. unfold try_except.
  destruct (Hm s) as [HPm Hnm].
  destruct (res (m s)) as [a | e]; cbn [log].
  - split; [exact HPm |].
    apply Nat.le_trans with n; [exact Hnm | apply Nat.le_add_r].
  - destruct (Hh e (st (m s))) as [HPh Hkh].
    rewrite forallb_app, length_app, HPm, HPh.
    split; [reflexivity | now apply Nat.add_le_mono].
Qed.

Variable py : python.
Variable chat_completions_create : chat_request -> handler S chat_completion.
Variable _process_response : option string -> handler S pyval.
Variable responses_create : responses_request -> handler S response.

Lemma web_search_calls (domain : string) (url : pyval) :
  at_most is_research_call 2 (MainPy.web_search py chat_completions_create domain url).
Proof.
  unfold MainPy.web_search.
  apply (at_most_bind _ 1 1); [now apply at_most_call | intros search_response].
  apply (at_most_bind _ 0 1); [apply at_most_lift | intros search_message].
  destruct (msg_tool_calls search_message) as [[| tc rest] |];
    try apply at_most_ret.
  apply (at_most_bind _ 0 1); [apply at_most_lift | intros search_args].
  apply (at_most_bind _ 0 1); [apply at_most_lift | intros _].
  apply (at_most_bind _ 1 0); [now apply at_most_call | intros results_response].
  apply (at_most_bind _ 0 0); [apply at_most_lift | intros m].
  apply at_most_ret.
Qed.

Lemma main_research_calls (domain : string) (url : pyval) :
  at_most is_research_call 3
    (MainPy._research_domain_with_web_search
       py chat_completions_create _process_response domain url).
Proof.
  unfold MainPy._research_domain_with_web_search.
  apply (at_most_try_except _ 3 0); [| intros e; apply at_most_ret].
  unfold MainPy.research_attempt.
  apply (at_most_bind _ 3 0).
  - unfold MainPy.classification_content.
    apply (at_most_bind _ 2 1); [apply web_search_calls | intros search_results].
    apply (at_most_bind _ 1 0); [now apply at_most_call | intros r].
    apply (at_most_bind _ 0 0); [apply at_most_lift | intros m].
    apply at_most_ret.
  - intros content.
    apply (at_most_bind _ 0 0); [apply at_most_internal | intros result].
    repeat (apply (at_most_bind _ 0 0); [apply at_most_lift | intros ?]).
    apply at_most_ret.
Qed.

(** The research step of src/main.py starts with the search request. *)
Lemma main_research_first_call (domain : string) (url : pyval) (s : S) :
  exists rest,
    log (MainPy._research_domain_with_web_search
           py chat_completions_create _process_response domain url s)
    = EvChatCreate (MainPy.search_request py domain url) :: rest.
Proof.
  unfold MainPy._research_domain_with_web_search, MainPy.research_attempt,
    MainPy.classification_content, MainPy.web_search.
  set (rest1 := fun search_response : chat_completion => _).
  set (k2 := fun search_results : pyval => _).
  set (k3 := fun content : option string => _).
  set (h := fun e : exn => _).
  unfold try_except, bind, call. cbn [res st log].
  destruct (fst (chat_completions_create (MainPy.search_request py domain url) s));
    cbn [res st log app]; try (eexists; reflexivity).
  repeat match goal with
         | |- context [match res ?x with _ => _ end] =>
             destruct (res x); cbn [res st log app]
         end;
    eexists; reflexivity.
Qed.

End Calls.

Lemma research_only_counts (l : list event) :
  forallb is_research_call l = true ->
  store_calls l = 0 /\ research_calls l = length l.
Proof.
  unfold store_calls, research_calls.
  induction l as [| e l IH]; [now split |].
  cbn [forallb filter]. intros H. apply andb_true_iff in H. destruct H as [He Hl].
  destruct (IH Hl) as [IHs IHr].
  destruct e; try discriminate He; cbn [is_store_call is_research_call length];
    now rewrite IHs, IHr.
Qed.

(** X4. Whatever the document and the collaborators, a call of [analyze] of
    src/main.py queries the store at most once, and only when a store was
    given; the query comes before every call to the client, of which there
    are at most three. A call of [analyze] of src/new.py makes no query and
    at most one call to the client. *)
Theorem analyze_calls_bounded {S : Type}
    (py : python)
    (chat_completions_create : chat_request -> handler S chat_completion)
    (_process_response : option string -> handler S pyval)
    (responses_create : responses_request -> handler S response)
    (document : pyval) (c : option (collection S)) (s : S) :
  let l := log (MainPy.analyze py chat_completions_create _process_response
                  document c s) in
  let l' := log (NewPy.analyze py responses_create document c s) in
  (exists l1 l2,
      l = (l1 ++ l2)%list /\
      (l1 = [] \/ (c <> None /\ exists q p, l1 = [EvFindOne q p])) /\
      forallb is_research_call l2 = true /\ length l2 <= 3) /\
  store_calls l <= 1 /\ research_calls l <= 3 /\
  store_calls l' = 0 /\ research_calls l' <= 1.
Proof.
  intros l l'.
  assert (Hsplit : exists l1 l2,
             l = (l1 ++ l2)%list /\
             (l1 = [] \/ (c <> None /\ exists q p, l1 = [EvFindOne q p])) /\
             forallb is_research_call l2 = true /\ length l2 <= 3).
  { subst l. destruct (malformed document) as [v |] eqn:E.
    - rewrite (main_analyze_malformed py chat_completions_create _process_response
                 document v c s E).
      exists [], []. repeat split; auto using Nat.le_0_l.
    - destruct document as [| b | z | q | str | li | doc]; try discriminate E.
      destruct (malformed_none doc E) as [info Hinfo].
      destruct (lacks_or_names info) as [Hlack | Hnames].
      + rewrite (main_analyze_lacks_domain py chat_completions_create _process_response
                   doc info c s Hinfo Hlack).
        exists [], []. repeat split; auto using Nat.le_0_l.
      + destruct c as [coll |].
        * rewrite (main_analyze_with_store py chat_completions_create _process_response
                     doc info coll s Hinfo Hnames).
          cbn zeta.
          destruct (truthy _); cbn [log].
          -- eexists [_], []. split; [reflexivity |].
             split; [right; split; [discriminate | eauto] |].
             split; [reflexivity | apply Nat.le_0_l].
          -- eexists [_], _. split; [reflexivity |].
             split; [right; split; [discriminate | eauto] |].
             apply main_research_calls.
        * rewrite (main_analyze_names_domain py chat_completions_create
                     _process_response doc info None s Hinfo Hnames).
          cbn zeta. eexists [], _. split; [reflexivity |].
          split; [now left |]. apply main_research_calls. }
  split; [exact Hsplit |].
  destruct Hsplit as (l1 & l2 & Hl & Hl1 & Hl2 & Hlen).
  destruct (research_only_counts l2 Hl2) as [Hs2 Hr2].
  assert (Hmain : store_calls l <= 1 /\ research_calls l <= 3).
  { rewrite Hl. unfold store_calls, research_calls in *.
    rewrite !filter_app, !length_app, Hs2, Hr2.
    destruct Hl1 as [-> | (_ & q & p & ->)]; cbn [filter is_store_call is_research_call length];
      split; auto using Nat.le_0_l. }
  split; [apply Hmain |]. split; [apply Hmain |].
  subst l'. destruct (malformed document) as [v |] eqn:E.
  - rewrite (new_analyze_malformed py responses_create document v c s E).
    split; [reflexivity | apply Nat.le_0_l].
  - destruct document as [| b | z | q | str | li | doc]; try discriminate E.
    destruct (malformed_none doc E) as [info Hinfo].
    destruct (lacks_or_names info) as [Hlack | Hnames].
    + rewrite (new_analyze_lacks_domain py responses_create doc info c s Hinfo Hlack).
      split; [reflexivity | apply Nat.le_0_l].
    + rewrite (new_analyze_names_domain py responses_create doc info c s Hinfo Hnames).
      rewrite new_research_log. split; [reflexivity | apply Nat.le_refl].
Qed.

(** * The search round of src/main.py *)

Section SearchRound.
Context {S : Type}.
Variable py : python.
Variable chat_completions_create : chat_request -> handler S chat_completion.
Variable _process_response : option string -> handler S pyval.

Lemma bind_call_returns {A B} (ev : event) (h : handler S A) (f : A -> M S B)
    (s s1 s2 : S) (a : A) (o : outcome B) (l : list event) :
  h s = (Ret a, s1) ->
  f a s1 = mkRun o s2 l ->
  bind (call ev h) f s = mkRun o s2 (ev :: l).
Proof. intros H Hf. unfold bind, call. rewrite H. cbn [fst snd res st log]. now rewrite Hf. Qed.

Lemma bind_call_raises {A B} (ev : event) (h : handler S A) (f : A -> M S B)
    (s s1 : S) (e : exn) :
  h s = (Raise e, s1) ->
  bind (call ev h) f s = mkRun (Raise e) s1 [ev].
Proof. intros H. unfold bind, call. rewrite H. reflexivity. Qed.

Lemma bind_run_returns {A B} (m : M S A) (f : A -> M S B) (s s1 : S) (a : A)
    (l : list event) :
  m s = mkRun (Ret a) s1 l ->
  bind m f s = mkRun (res (f a s1)) (st (f a s1)) (l ++ log (f a s1))%list.
Proof. intros H. unfold bind. rewrite H. reflexivity. Qed.

Lemma bind_run_raises {A B} (m : M S A) (f : A -> M S B) (s s1 : S) (e : exn)
    (l : list event) :
  m s = mkRun (Raise e) s1 l ->
  bind m f s = mkRun (Raise e) s1 l.
Proof. intros H. unfold bind. rewrite H. reflexivity. Qed.

(** When the search round raises, so much of the research was done. *)
Lemma research_after_failed_search
    (domain : string) (url : pyval) (s s1 : S) (e : exn) (l : list event) :
  MainPy.web_search py chat_completions_create domain url s = mkRun (Raise e) s1 l ->
  MainPy._research_domain_with_web_search
    py chat_completions_create _process_response domain url s
  = mkRun (Ret (MainPy.error_result e domain)) s1 l.
Proof.
  intros H.
  unfold MainPy._research_domain_with_web_search.
  assert (Hattempt : MainPy.research_attempt py chat_completions_create
                       _process_response domain url s = mkRun (Raise e) s1 l).
  { unfold MainPy.research_attempt. apply bind_run_raises.
    unfold MainPy.classification_content. now apply bind_run_raises. }
  unfold try_except. rewrite Hattempt. cbn [res st log ret].
  now rewrite app_nil_r.
Qed.

Lemma web_search_no_choice (domain : string) (url : pyval) (s s1 : S) :
  chat_completions_create (MainPy.search_request py domain url) s
    = (Ret (mkChatCompletion []), s1) ->
  MainPy.web_search py chat_completions_create domain url s
  = mkRun (Raise (mkExn "IndexError" "list index out of range")) s1
          [EvChatCreate (MainPy.search_request py domain url)].
Proof.
  intros H. unfold MainPy.web_search.
  eapply bind_call_returns; [exact H |]. reflexivity.
Qed.

Lemma web_search_no_tool_call
    (domain : string) (url : pyval) (s s1 : S)
    (m1 : chat_message) (others : list choice) :
  chat_completions_create (MainPy.search_request py domain url) s
    = (Ret (mkChatCompletion (mkChoice m1 :: others)), s1) ->
  msg_tool_calls m1 = None \/ msg_tool_calls m1 = Some [] ->
  MainPy.web_search py chat_completions_create domain url s
  = mkRun (Ret (PStr "No search results available.")) s1
          [EvChatCreate (MainPy.search_request py domain url)].
Proof.
  intros H Hno. unfold MainPy.web_search.
  eapply bind_call_returns; [exact H |].
  unfold first_message. cbn [choices message].
  rewrite bind_lift_ret.
  destruct Hno as [Hno | Hno]; rewrite Hno; reflexivity.
Qed.

(** The search round up to the decoding of the tool call's arguments. *)
Lemma web_search_bad_arguments
    (domain : string) (url : pyval) (s s1 : S)
    (m1 : chat_message) (others : list choice) (tc : tool_call) (rest : list tool_call)
    (e : exn) :
  chat_completions_create (MainPy.search_request py domain url) s
    = (Ret (mkChatCompletion (mkChoice m1 :: others)), s1) ->
  msg_tool_calls m1 = Some (tc :: rest) ->
  match json_loads py (fc_arguments (tc_function tc)) with
  | Raise e' => e = e'
  | Ret (PDict _) => False
  | Ret v => e = no_attribute v "get"
  end ->
  MainPy.web_search py chat_completions_create domain url s
  = mkRun (Raise e) s1 [EvChatCreate (MainPy.search_request py domain url)].
Proof.
  intros H Htc He. unfold MainPy.web_search.
  eapply bind_call_returns; [exact H |].
  unfold first_message. cbn [choices message].
  rewrite bind_lift_ret. rewrite Htc.
  destruct (json_loads py (fc_arguments (tc_function tc))) as [v | e'].
  - rewrite bind_lift_ret.
    destruct v; try (subst e; reflexivity). contradiction.
  - subst e'. reflexivity.
Qed.

Lemma web_search_results
    (domain : string) (url : pyval) (s s1 s2 : S)
    (m1 m2 : chat_message) (others others2 : list choice)
    (tc : tool_call) (rest : list tool_call) (d : pydict) :
  chat_completions_create (MainPy.search_request py domain url) s
    = (Ret (mkChatCompletion (mkChoice m1 :: others)), s1) ->
  msg_tool_calls m1 = Some (tc :: rest) ->
  json_loads py (fc_arguments (tc_function tc)) = Ret (PDict d) ->
  chat_completions_create (MainPy.results_request py domain url m1 tc) s1
    = (Ret (mkChatCompletion (mkChoice m2 :: others2)), s2) ->
  MainPy.web_search py chat_completions_create domain url s
  = mkRun (Ret (content_value (msg_content m2))) s2
          [ EvChatCreate (MainPy.search_request py domain url);
            EvChatCreate (MainPy.results_request py domain url m1 tc) ].
Proof.
  intros H Htc Hj H2. unfold MainPy.web_search.
  eapply bind_call_returns; [exact H |].
  unfold first_message at 1. cbn [choices message].
  rewrite bind_lift_ret. rewrite Htc, Hj.
  rewrite bind_lift_ret. cbn [py_get]. rewrite bind_lift_ret.
  eapply bind_call_returns; [exact H2 |].
  reflexivity.
Qed.

(** The classification request after a search round that returned. *)
Lemma classification_after_search
    (domain : string) (url search_results : pyval) (s s1 s3 : S) (l : list event)
    (m3 : chat_message) (others3 : list choice) :
  MainPy.web_search py chat_completions_create domain url s
    = mkRun (Ret search_results) s1 l ->
  chat_completions_create (MainPy.classification_request py domain search_results url) s1
    = (Ret (mkChatCompletion (mkChoice m3 :: others3)), s3) ->
  MainPy.classification_content py chat_completions_create domain url s
  = mkRun (Ret (msg_content m3)) s3
          (l ++ [EvChatCreate
                   (MainPy.classification_request py domain search_results url)])%list.
Proof.
  intros Hs H3. unfold MainPy.classification_content.
  rewrite (bind_run_returns _ _ _ _ _ _ Hs).
  assert (Hk : (classification_response <-
                  call (EvChatCreate
                          (MainPy.classification_request py domain search_results url))
                       (chat_completions_create
                          (MainPy.classification_request py domain search_results url)) ;;
                m <- lift (first_message classification_response) ;;
                ret (msg_content m)) s1
               = mkRun (Ret (msg_content m3)) s3
                       [EvChatCreate
                          (MainPy.classification_request py domain search_results url)]).
  { eapply bind_call_returns; [exact H3 |]. reflexivity. }
  rewrite Hk. reflexivity.
Qed.

End SearchRound.

(** X5. When the first answer of the client carries no tool call ([None]
    or an empty list), the search round of src/main.py sends no second
    request: the classification request follows at once, with the text
    [No search results available.] where the prompt has the search results,
    and its answer's content is what goes to [_process_response]. *)
Theorem research_without_tool_call {S : Type}
    (py : python)
    (chat_completions_create : chat_request -> handler S chat_completion)
    (domain : string) (url : pyval) (s s1 s3 : S)
    (m1 m3 : chat_message) (others others3 : list choice) :
  chat_completions_create (MainPy.search_request py domain url) s
    = (Ret (mkChatCompletion (mkChoice m1 :: others)), s1) ->
  msg_tool_calls m1 = None \/ msg_tool_calls m1 = Some [] ->
  let rq := MainPy.classification_request py domain
              (PStr "No search results available.") url in
  chat_completions_create rq s1 = (Ret (mkChatCompletion (mkChoice m3 :: others3)), s3) ->
  MainPy.classification_content py chat_completions_create domain url s
  = mkRun (Ret (msg_content m3)) s3
          [EvChatCreate (MainPy.search_request py domain url); EvChatCreate rq].
Proof.
  intros H1 Hno rq H3.
  apply (classification_after_search py chat_completions_create domain url
           (PStr "No search results available.") s s1 s3
           [EvChatCreate (MainPy.search_request py domain url)] m3 others3).
  - now apply web_search_no_tool_call with (m1 := m1) (others := others).
  - exact H3.
Qed.

Lemma research_without_tool_call_witness :
  MainPy.classification_content Demo.python Demo.chat_plain
    "example.org" (PStr "https://help.example.org/x") 0
  = mkRun (Ret (Some Demo.classification_text)) 2
          [ EvChatCreate (MainPy.search_request Demo.python "example.org"
                            (PStr "https://help.example.org/x"));
            EvChatCreate (MainPy.classification_request Demo.python "example.org"
                            (PStr "No search results available.")
                            (PStr "https://help.example.org/x")) ].
Proof.
  apply (research_without_tool_call Demo.python Demo.chat_plain
           "example.org" (PStr "https://help.example.org/x") 0 1 2
           (mkChatMessage (Some "Ich kann nicht im Web suchen.") (Some []))
           (mkChatMessage (Some Demo.classification_text) None) [] []).
  - reflexivity.
  - right. reflexivity.
  - reflexivity.
Defined.

(** X6. When the first answer of the client has an empty list of choices,
    [choices[0]] fails inside the [try]: the research step of src/main.py
    returns the error result with the message of the [IndexError], after
    that one request. *)
Theorem research_without_choice {S : Type}
    (py : python)
    (chat_completions_create : chat_request -> handler S chat_completion)
    (_process_response : option string -> handler S pyval)
    (domain : string) (url : pyval) (s s1 : S) :
  chat_completions_create (MainPy.search_request py domain url) s
    = (Ret (mkChatCompletion []), s1) ->
  MainPy._research_domain_with_web_search
    py chat_completions_create _process_response domain url s
  = mkRun (Ret (PDict [ ("urheber", PStr "unbekannt");
                        ("confidence", PInt 0);
                        ("method", PStr "error");
                        ("error", PStr "list index out of range");
                        ("domain", PStr domain) ]))
          s1 [EvChatCreate (MainPy.search_request py domain url)].
Proof.
  intros H.
  apply (research_after_failed_search py chat_completions_create _process_response
           domain url s s1 (mkExn "IndexError" "list index out of range")).
  now apply web_search_no_choice.
Qed.

Lemma research_without_choice_witness :
  res (MainPy._research_domain_with_web_search
         Demo.python Demo.chat_empty Demo.process_response
         "example.org" (PStr "https://help.example.org/x") 0)
  = Ret (PDict [ ("urheber", PStr "unbekannt");
                 ("confidence", PInt 0);
                 ("method", PStr "error");
                 ("error", PStr "list index out of range");
                 ("domain", PStr "example.org") ]).
Proof.
  rewrite (research_without_choice Demo.python Demo.chat_empty Demo.process_response
             "example.org" (PStr "https://help.example.org/x") 0 1 eq_refl).
  reflexivity.
Defined.

(** X7. When the arguments of the tool call cannot be decoded, or decode to
    something that is no object, the research step of src/main.py stops
    after the first request: no results request and no classification
    request is sent, and the result is the error result with the decoder's
    message or with that of the failed [.get]. *)
Theorem research_with_bad_arguments {S : Type}
    (py : python)
    (chat_completions_create : chat_request -> handler S chat_completion)
    (_process_response : option string -> handler S pyval)
    (domain : string) (url : pyval) (s s1 : S)
    (m1 : chat_message) (others : list choice) (tc : tool_call) (rest : list tool_call) :
  chat_completions_create (MainPy.search_request py domain url) s
    = (Ret (mkChatCompletion (mkChoice m1 :: others)), s1) ->
  msg_tool_calls m1 = Some (tc :: rest) ->
  let r := MainPy._research_domain_with_web_search
             py chat_completions_create _process_response domain url s in
  (forall e, json_loads py (fc_arguments (tc_function tc)) = Raise e ->
             r = mkRun (Ret (MainPy.error_result e domain)) s1
                       [EvChatCreate (MainPy.search_request py domain url)]) /\
  (forall v, json_loads py (fc_arguments (tc_function tc)) = Ret v ->
             (forall d, v <> PDict d) ->
             r = mkRun (Ret (MainPy.error_result (no_attribute v "get") domain)) s1
                       [EvChatCreate (MainPy.search_request py domain url)]).
Proof.
  intros H Htc r. subst r. split.
  - intros e He.
    apply research_after_failed_search.
    apply web_search_bad_arguments with (m1 := m1) (others := others)
                                        (tc := tc) (rest := rest); auto.
    now rewrite He.
  - intros v Hv Hnot.
    apply research_after_failed_search.
    apply web_search_bad_arguments with (m1 := m1) (others := others)
                                        (tc := tc) (rest := rest); auto.
    rewrite Hv. destruct v; try reflexivity. now destruct (Hnot d).
Qed.

Lemma research_with_bad_arguments_witness :
  res (MainPy._research_domain_with_web_search
         Demo.python (Demo.chat_with_arguments "[1]") Demo.process_response
         "example.org" (PStr "https://help.example.org/x") 0)
  = Ret (MainPy.error_result (no_attribute (PList [PInt 1]) "get") "example.org") /\
  research_calls
    (log (MainPy._research_domain_with_web_search
            Demo.python (Demo.chat_with_arguments "query") Demo.process_response
            "example.org" (PStr "https://help.example.org/x") 0)) = 1.
Proof.
  split.
  - destruct (research_with_bad_arguments Demo.python (Demo.chat_with_arguments "[1]")
                Demo.process_response "example.org" (PStr "https://help.example.org/x")
                0 1
                (mkChatMessage None
                   (Some [mkToolCall "call_1" (mkFunctionCall "web_search" "[1]")]))
                [] (mkToolCall "call_1" (mkFunctionCall "web_search" "[1]")) []
                eq_refl eq_refl)
      as [_ Hv].
    rewrite (Hv (PList [PInt 1])); [reflexivity | reflexivity |].
    intros d Hd. discriminate Hd.
  - destruct (research_with_bad_arguments Demo.python (Demo.chat_with_arguments "query")
                Demo.process_response "example.org" (PStr "https://help.example.org/x")
                0 1
                (mkChatMessage None
                   (Some [mkToolCall "call_1" (mkFunctionCall "web_search" "query")]))
                [] (mkToolCall "call_1" (mkFunctionCall "web_search" "query")) []
                eq_refl eq_refl)
      as [He _].
    rewrite (He (Json.decode_error "Expecting value")); reflexivity.
Defined.

(** X8. When the first answer carries a tool call whose arguments decode to
    an object, the research of src/main.py makes three requests: the search
    request; a results request that sends the answer back with a tool message
    of the fixed content [Search results for the domain...], whatever the
    arguments were; and the classification request, whose prompt has the
    content of the second answer as its search results. The content of the
    third answer is what goes to [_process_response]. *)
Theorem research_with_tool_call {S : Type}
    (py : python)
    (chat_completions_create : chat_request -> handler S chat_completion)
    (domain : string) (url : pyval) (s s1 s2 s3 : S)
    (m1 m2 m3 : chat_message) (others others2 others3 : list choice)
    (tc : tool_call) (rest : list tool_call) (d : pydict) :
  chat_completions_create (MainPy.search_request py domain url) s
    = (Ret (mkChatCompletion (mkChoice m1 :: others)), s1) ->
  msg_tool_calls m1 = Some (tc :: rest) ->
  json_loads py (fc_arguments (tc_function tc)) = Ret (PDict d) ->
  let rq2 := MainPy.results_request py domain url m1 tc in
  chat_completions_create rq2 s1
    = (Ret (mkChatCompletion (mkChoice m2 :: others2)), s2) ->
  let rq3 := MainPy.classification_request py domain
               (content_value (msg_content m2)) url in
  chat_completions_create rq3 s2
    = (Ret (mkChatCompletion (mkChoice m3 :: others3)), s3) ->
  MainPy.classification_content py chat_completions_create domain url s
  = mkRun (Ret (msg_content m3)) s3
          [ EvChatCreate (MainPy.search_request py domain url);
            EvChatCreate rq2; EvChatCreate rq3 ] /\
  last (rq_messages rq2) (MsgDict PNone)
  = MsgDict (PDict [ ("role", PStr "tool");
                     ("tool_call_id", PStr (tc_id tc));
                     ("name", PStr "web_search");
                     ("content", PStr "Search results for the domain...") ]).
Proof.
  intros H1 Htc Hj rq2 H2 rq3 H3. split; [| reflexivity].
  apply (classification_after_search py chat_completions_create domain url
           (content_value (msg_content m2)) s s2 s3
           [EvChatCreate (MainPy.search_request py domain url); EvChatCreate rq2]
           m3 others3).
  - now apply web_search_results with (others := others) (others2 := others2)
                                      (rest := rest) (d := d) (s1 := s1).
  - exact H3.
Qed.

Lemma research_with_tool_call_witness :
  let url := PStr "https://help.example.org/x" in
  let m1 := mkChatMessage None
              (Some [mkToolCall "call_1"
                       (mkFunctionCall "web_search" Demo.tool_arguments)]) in
  let tc := mkToolCall "call_1" (mkFunctionCall "web_search" Demo.tool_arguments) in
  MainPy.classification_content Demo.python Demo.chat "example.org" url 0
  = mkRun (Ret (Some Demo.classification_text)) 3
          [ EvChatCreate (MainPy.search_request Demo.python "example.org" url);
            EvChatCreate (MainPy.results_request Demo.python "example.org" url m1 tc);
            EvChatCreate
              (MainPy.classification_request Demo.python "example.org"
                 (PStr "Die Website example.org wird von der Example GmbH betrieben.")
                 url) ].
Proof.
  intros url m1 tc.
  apply (research_with_tool_call Demo.python Demo.chat "example.org" url 0 1 2 3
           m1
           (mkChatMessage
              (Some "Die Website example.org wird von der Example GmbH betrieben.") None)
           (mkChatMessage (Some Demo.classification_text) None)
           [] [] [] tc []
           [("query", PStr "example.org Betreiber Impressum")]).
  - reflexivity.
  - reflexivity.
  - vm_compute. reflexivity.
  - reflexivity.
  - reflexivity.
Defined.

(** * The text of the prompts *)

Lemma prefix_app (x a b : string) :
  String.prefix x a = true -> String.prefix x (a ++ b) = true.
Proof.
  revert a. induction x as [| c x IH]; intros a H; [now destruct (a ++ b) |].
  destruct a as [| c' a]; [discriminate H |].
  cbn in *. destruct (Ascii.ascii_dec c c'); [now apply IH | discriminate H].
Qed.

Lemma prefix_self (x b : string) : String.prefix x (x ++ b) = true.
Proof.
  induction x as [| c x IH]; [now destruct b |].
  cbn. now destruct (Ascii.ascii_dec c c).
Qed.

Lemma is_substring_app_l (x a b : string) :
  is_substring x a = true -> is_substring x (a ++ b) = true.
Proof.
  induction a as [| c a IH]; intros H.
  - cbn in H. destruct x; [now destruct b | discriminate H].
  - cbn [is_substring] in H.
    change (String c a ++ b) with (String c (a ++ b)). cbn [is_substring].
    destruct (String.prefix x (String c a)) eqn:E.
    + change (String c (a ++ b)) with (String c a ++ b).
      now rewrite (prefix_app _ _ b E).
    + destruct (String.prefix x (String c (a ++ b))); [reflexivity | now apply IH].
Qed.

Lemma is_substring_app_r (x a b : string) :
  is_substring x b = true -> is_substring x (a ++ b) = true.
Proof.
  intros H. induction a as [| c a IH]; [exact H |].
  change (String c a ++ b) with (String c (a ++ b)). cbn [is_substring].
  destruct (String.prefix x (String c (a ++ b))); [reflexivity | exact IH].
Qed.

Lemma is_substring_head (x b : string) : is_substring x (x ++ b) = true.
Proof.
  destruct x as [| c x]; [now destruct b |].
  change (String c x ++ b) with (String c (x ++ b)). cbn [is_substring].
  change (String c (x ++ b)) with (String c x ++ b).
  now rewrite prefix_self.
Qed.

Lemma contains_all_app_l (xs : list string) (a b : string) :
  contains_all xs a = true -> contains_all xs (a ++ b) = true.
Proof.
  unfold contains_all. rewrite !forallb_forall.
  intros H x Hx. apply is_substring_app_l. now apply H.
Qed.

Lemma contains_all_app_r (xs : list string) (a b : string) :
  contains_all xs b = true -> contains_all xs (a ++ b) = true.
Proof.
  unfold contains_all. rewrite !forallb_forall.
  intros H x Hx. apply is_substring_app_r. now apply H.
Qed.

(** Every category is named, in double quotes, in the list of the prompts. *)
Lemma quoted_categories_in_lines :
  contains_all (map quoted categories) category_lines = true.
Proof. vm_compute. reflexivity. Qed.

(** X9. Whatever the domain, the URL and the search results, each of the
    three prompts of the repository (the classification prompt of
    src/main.py, its unused [_create_urheber_prompt], the prompt of
    src/new.py) names every one of the seven categories in double quotes, and
    contains the domain and the URL it was built for. *)
Theorem prompts_name_categories
    (py : python) (domain : string) (url search_results : pyval) (url_text : string) :
  let p1 := MainPy.classification_prompt py domain search_results url in
  let p2 := MainPy._create_urheber_prompt domain url_text in
  let p3 := NewPy.prompt py domain url in
  length categories = 7 /\
  (contains_all (map quoted categories) p1 = true /\
   is_substring domain p1 = true /\
   is_substring (py_str py url) p1 = true /\
   is_substring (py_str py search_results) p1 = true) /\
  (contains_all (map quoted categories) p2 = true /\
   is_substring domain p2 = true /\
   is_substring url_text p2 = true) /\
  (contains_all (map quoted categories) p3 = true /\
   is_substring domain p3 = true /\
   is_substring (py_str py url) p3 = true).
Proof.
  intros p1 p2 p3. subst p1 p2 p3.
  unfold MainPy.classification_prompt, MainPy._create_urheber_prompt, NewPy.prompt.
  split; [reflexivity |].
  repeat match goal with
         | |- _ /\ _ => split
         | |- is_substring ?x (?y ++ _) = true =>
             constr_eq x y; apply is_substring_head
         | |- contains_all _ (category_lines ++ _) = true =>
             apply contains_all_app_l; exact quoted_categories_in_lines
         | |- contains_all _ (_ ++ _) = true => apply contains_all_app_r
         | |- is_substring _ (_ ++ _) = true => apply is_substring_app_r
         end.
Qed.

(** * The domain field *)

(** X10. A result carries the [domain] field exactly when validation
    passed: on a document that names a domain, every result of either
    analyzer (from the store, from the research, or the error result) has the
    full domain under [domain] and a method other than [failure]; on a
    document that lacks one, the result has method [failure] and no [domain]
    field. *)
Theorem analyze_domain_field {S : Type}
    (py : python)
    (chat_completions_create : chat_request -> handler S chat_completion)
    (_process_response : option string -> handler S pyval)
    (responses_create : responses_request -> handler S response)
    (doc info : pydict) (c : option (collection S)) (s : S) :
  has_domain_info doc info ->
  let full := MainPy.full_domain_of py (domain_of info) (tld_of info) in
  let rm := res (MainPy.analyze py chat_completions_create _process_response
                   (PDict doc) c s) in
  let rn := res (NewPy.analyze py responses_create (PDict doc) c s) in
  (names_domain info ->
   (exists r, rm = Ret r /\ field "domain" r = Some (PStr full) /\
              ~ has_method "failure" r) /\
   (exists r, rn = Ret r /\ field "domain" r = Some (PStr full) /\
              ~ has_method "failure" r)) /\
  (lacks_domain info ->
   (exists r, rm = Ret r /\ field "domain" r = None /\ has_method "failure" r) /\
   (exists r, rn = Ret r /\ field "domain" r = None /\ has_method "failure" r)).
Proof.
  intros Hinfo full rm rn. subst rm rn. split.
  - intros Hnames.
    assert (Hmain : forall s1,
               exists r,
                 res (MainPy._research_domain_with_web_search
                        py chat_completions_create _process_response
                        full (url_of doc) s1) = Ret r /\
                 field "domain" r = Some (PStr full) /\ ~ has_method "failure" r).
    { intros s1.
      destruct (main_research_cases py chat_completions_create _process_response
                  full (url_of doc) s1) as [[d Hd] | [e He]].
      - eexists. split; [exact Hd |].
        destruct (with_metadata_envelope "web_search" (8 # 10) full d)
          as (Hm & _ & Hdom & _).
        split; [exact Hdom |]. unfold has_method in *. rewrite Hm. discriminate.
      - eexists. split; [exact He |]. split; [reflexivity | discriminate]. }
    split.
    + destruct c as [coll |].
      * rewrite (main_analyze_with_store py chat_completions_create _process_response
                   doc info coll s Hinfo Hnames).
        cbn zeta. fold full.
        destruct (truthy _); cbn [res].
        -- eexists. split; [reflexivity |]. split; [reflexivity | discriminate].
        -- apply Hmain.
      * rewrite (main_analyze_names_domain py chat_completions_create
                   _process_response doc info None s Hinfo Hnames).
        cbn zeta. fold full. apply Hmain.
    + rewrite (new_analyze_names_domain py responses_create doc info c s Hinfo Hnames).
      change (NewPy.full_domain_of py (domain_of info) (tld_of info)) with full.
      destruct (new_research_cases py responses_create full (url_of doc) s)
        as [[d Hd] | [e He]].
      * eexists. split; [exact Hd |].
        destruct (with_metadata_envelope "responses_api_web_search" (9 # 10) full d)
          as (Hm & _ & Hdom & _).
        split; [exact Hdom |]. unfold has_method in *. rewrite Hm. discriminate.
      * eexists. split; [exact He |]. split; [reflexivity | discriminate].
  - intros Hlack. split.
    + rewrite (main_analyze_lacks_domain py chat_completions_create _process_response
                 doc info c s Hinfo Hlack).
      eexists. split; [reflexivity |]. split; reflexivity.
    + rewrite (new_analyze_lacks_domain py responses_create doc info c s Hinfo Hlack).
      eexists. split; [reflexivity |]. split; reflexivity.
Qed.

Lemma analyze_domain_field_witness :
  (exists r,
      res (MainPy.analyze Demo.python Demo.chat_empty Demo.process_response
             Demo.document (Some Demo.down_store) 0) = Ret r /\
      field "domain" r = Some (PStr "example.org") /\ ~ has_method "failure" r) /\
  (exists r,
      res (NewPy.analyze Demo.python (Demo.responses "Unternehmen")
             Demo.document (Some Demo.down_store) 0) = Ret r /\
      field "domain" r = Some (PStr "example.org") /\ ~ has_method "failure" r).
Proof.
  destruct (analyze_domain_field Demo.python Demo.chat_empty Demo.process_response
              (Demo.responses "Unternehmen")
              [ ("url", PStr "https://help.example.org/x");
                ("domain_info", PDict [("domain", PStr "example"); ("tld", PStr "org")]) ]
              [("domain", PStr "example"); ("tld", PStr "org")]
              (Some Demo.down_store) 0 eq_refl)
    as [Hnames _].
  apply Hnames. split; reflexivity.
Defined.
